(** * Daily Reflection plugin (src/main.ts): a shallow embedding

    The plugin asks a configurable list of journal questions in a modal
    form and writes the answers into a dated markdown note of the host's
    vault.  This development embeds [main.ts] function by function:

    - [JsString]: JavaScript strings as sequences of UTF-16 code units,
      the string literals of the source, [String.prototype.trim];
    - [Moment]: the two [moment().format(...)] calls of the source;
    - the settings records, [DEFAULT_SETTINGS] and [Object.assign];
    - [JsObject]: the plain object that holds the answers;
    - the state of the running plugin (the host's clock, vault and data
      file, the plugin's settings, the modal) and the code that reads and
      changes it, with the sequence of host calls recorded;
    - [writeDailyNote], [loadSettings], the modal ([onOpen], the handlers
      of the inputs and of the Save button, [onClose]) and the folder
      field of the settings tab.

    Modelling conventions.  An answer record ([Record<string, string>])
    is a plain object: its own entries are a finite map from keys to
    strings, and a read or a write of a key that names a member of
    [Object.prototype] goes through that member ([JsObject]).  The vault
    is a finite map from paths to file contents whose operations succeed:
    what is proved of the vault is about the runs in which the host's
    calls return.  Dates are formatted in Moment's default (English)
    locale. *)

From Stdlib Require Import ZArith NArith Ascii String List Bool Lia.
From stdpp Require Import base option list gmap.
Import ListNotations.

Local Open Scope N_scope.

(** ** JavaScript strings *)

Module JsString.

(** A JavaScript string is a sequence of 16-bit code units, [list N]. *)

Fixpoint bytes_of (s : string) : list N :=
  match s with
  | EmptyString => []
  | String c r => N_of_ascii c :: bytes_of r
  end.

(** The source file is UTF-8: a literal is decoded to code points ... *)
Fixpoint utf8_points (bs : list N) : list N :=
  match bs with
  | [] => []
  | b0 :: r0 =>
    if b0 <? 128 then b0 :: utf8_points r0
    else
      match r0 with
      | [] => []
      | b1 :: r1 =>
        if b0 <? 224 then (b0 mod 32 * 64 + b1 mod 64) :: utf8_points r1
        else
          match r1 with
          | [] => []
          | b2 :: r2 =>
            if b0 <? 240
            then (b0 mod 16 * 4096 + b1 mod 64 * 64 + b2 mod 64) :: utf8_points r2
            else
              match r2 with
              | [] => []
              | b3 :: r3 =>
                (b0 mod 8 * 262144 + b1 mod 64 * 4096 + b2 mod 64 * 64 + b3 mod 64)
                  :: utf8_points r3
              end
          end
      end
  end.

(** ... and each code point to one code unit, or to a surrogate pair. *)
Definition utf16_units (cp : N) : list N :=
  if cp <? 65536 then [cp]
  else [55296 + (cp - 65536) / 1024; 56320 + (cp - 65536) mod 1024].

(** The escape sequence of the source's literals: a backslash and [n]
    stand for a line feed. *)
Fixpoint unescape (bs : list N) : list N :=
  match bs with
  | [] => []
  | b :: r =>
    match r with
    | [] => [b]
    | c :: r' =>
      if (b =? 92) && (c =? 110) then 10 :: unescape r' else b :: unescape r
    end
  end.

(** [lit "..."] is the value of the source literal ["..."]. *)
Definition lit (s : string) : list N :=
  flat_map utf16_units (utf8_points (unescape (bytes_of s))).

(** WhiteSpace and LineTerminator code units, the ones [trim] strips. *)
Definition is_space (c : N) : bool :=
  (c =? 9) || (c =? 10) || (c =? 11) || (c =? 12) || (c =? 13) || (c =? 32)
  || (c =? 160) || (c =? 5760) || ((8192 <=? c) && (c <=? 8202))
  || (c =? 8232) || (c =? 8233) || (c =? 8239) || (c =? 8287)
  || (c =? 12288) || (c =? 65279).

Fixpoint trimStart (s : list N) : list N :=
  match s with
  | [] => []
  | c :: r => if is_space c then trimStart r else s
  end.

Definition trimEnd (s : list N) : list N := rev (trimStart (rev s)).

(** [String.prototype.trim]. *)
Definition trim (s : list N) : list N := trimEnd (trimStart s).

(** Truthiness of a string: only the empty string is falsy. *)
Definition truthy (s : list N) : bool :=
  match s with [] => false | _ :: _ => true end.

(** [a || b] on strings. *)
Definition or_else (a b : list N) : list N := if truthy a then a else b.

(** Decimal digits of a number, as [String(n)] prints a non-negative
    integer. *)
Fixpoint of_uint (u : Decimal.uint) : list N :=
  match u with
  | Decimal.Nil => []
  | Decimal.D0 r => 48 :: of_uint r
  | Decimal.D1 r => 49 :: of_uint r
  | Decimal.D2 r => 50 :: of_uint r
  | Decimal.D3 r => 51 :: of_uint r
  | Decimal.D4 r => 52 :: of_uint r
  | Decimal.D5 r => 53 :: of_uint r
  | Decimal.D6 r => 54 :: of_uint r
  | Decimal.D7 r => 55 :: of_uint r
  | Decimal.D8 r => 56 :: of_uint r
  | Decimal.D9 r => 57 :: of_uint r
  end.

Definition of_N (n : N) : list N := of_uint (N.to_uint n).

End JsString.

Arguments JsString.lit s%_string.

Abbreviation jsstring := (list N) (only parsing).
Abbreviation lit := JsString.lit.

(** ** Moment.js: the clock and the two formats of the source *)

Module Moment.

Local Open Scope Z_scope.

(** A moment is read from the wall clock; the formats used by the source
    depend on its local calendar day only, kept as the number of days
    since 1970-01-01. *)
Record t := { dayNumber : Z }.

(** Civil date of a day number (proleptic Gregorian calendar). *)
Definition civil (m : t) : Z * Z * Z :=
  let z := dayNumber m + 719468 in
  let era := z / 146097 in
  let doe := z - era * 146097 in
  let yoe := (doe - doe / 1460 + doe / 36524 - doe / 146096) / 365 in
  let doy := doe - (365 * yoe + yoe / 4 - yoe / 100) in
  let mp := (5 * doy + 2) / 153 in
  let d := doy - (153 * mp + 2) / 5 + 1 in
  let mo := if mp <? 10 then mp + 3 else mp - 9 in
  let y := yoe + era * 400 + (if mo <=? 2 then 1 else 0) in
  (y, mo, d).

Definition year (m : t) : Z := fst (fst (civil m)).
Definition month (m : t) : Z := snd (fst (civil m)).
Definition date (m : t) : Z := snd (civil m).

(** Day of the week, 0 for Sunday. *)
Definition day (m : t) : Z := (dayNumber m + 4) mod 7.

(** The day number of a civil date, to write down a fixed date. *)
Definition ofCivil (y mo d : Z) : t :=
  let y' := if mo <=? 2 then y - 1 else y in
  let era := y' / 400 in
  let yoe := y' - era * 400 in
  let doy := (153 * (if mo <=? 2 then mo + 9 else mo - 3) + 2) / 5 + d - 1 in
  let doe := yoe * 365 + yoe / 4 - yoe / 100 + doy in
  {| dayNumber := era * 146097 + doe - 719468 |}.

(** [zeroFill(number, targetLength)]: the sign, then the digits of the
    absolute value left-padded with zeros. *)
Definition zeroFill (number : Z) (targetLength : nat) : jsstring :=
  let absNumber := JsString.of_N (Z.abs_N number) in
  (if 0 <=? number then [] else lit "-")
    ++ repeat 48%N (targetLength - length absNumber) ++ absNumber.

Definition weekdays : list jsstring :=
  [lit "Sunday"; lit "Monday"; lit "Tuesday"; lit "Wednesday";
   lit "Thursday"; lit "Friday"; lit "Saturday"].

Definition months : list jsstring :=
  [lit "January"; lit "February"; lit "March"; lit "April"; lit "May";
   lit "June"; lit "July"; lit "August"; lit "September"; lit "October";
   lit "November"; lit "December"].

(** The format tokens that occur in the source, and literal text. *)
Inductive token :=
  | YYYY | MM | DD | D | MMMM | dddd
  | Text (s : jsstring).

Definition formatToken (m : t) (k : token) : jsstring :=
  match k with
  | YYYY => zeroFill (year m) 4
  | MM => zeroFill (month m) 2
  | DD => zeroFill (date m) 2
  | D => JsString.of_N (Z.to_N (date m))
  | MMMM => nth (Z.to_nat (month m - 1)) months []
  | dddd => nth (Z.to_nat (day m)) weekdays []
  | Text s => s
  end.

Definition format (m : t) (fmt : list token) : jsstring :=
  flat_map (formatToken m) fmt.

(** ["YYYY-MM-DD"] *)
Definition isoDate : list token := [YYYY; Text (lit "-"); MM; Text (lit "-"); DD].

(** ["dddd, MMMM D YYYY"] *)
Definition longDate : list token :=
  [dddd; Text (lit ", "); MMMM; Text (lit " "); D; Text (lit " "); YYYY].

End Moment.


(** ** Settings *)

Inductive QuestionType := text | number | dropdown.

Record Question := {
  id : jsstring;                    (* internal key *)
  label : jsstring;                 (* what the user sees *)
  type : QuestionType;
  choices : option (list jsstring)  (* for dropdown; [None] when absent *)
}.

Record ReflectionSettings := {
  dailyFolder : jsstring;
  questions : list Question
}.

Definition DEFAULT_SETTINGS : ReflectionSettings := {|
  dailyFolder := lit "Daily";
  questions := [
    {| id := lit "todo"; label := lit "✅ What I want to accomplish today";
       type := text; choices := None |};
    {| id := lit "yesterday"; label := lit "☑️ Reflections on yesterday’s to-do list & accomplishments";
       type := text; choices := None |};
    {| id := lit "dreams"; label := lit "😴 Dreams";
       type := text; choices := None |};
    {| id := lit "sleepHours"; label := lit "🛌 Hours of sleep";
       type := dropdown; choices := (Some [lit "4"; lit "5"; lit "6"; lit "7"; lit "8"; lit "9"; lit "10"; lit "11"; lit "12"]) |};
    {| id := lit "sleepLowest"; label := lit "Lowest heart rate";
       type := number; choices := None |};
    {| id := lit "sleepAvg"; label := lit "Average heart rate";
       type := number; choices := None |};
    {| id := lit "hrv"; label := lit "HRV";
       type := number; choices := None |};
    {| id := lit "sleepPattern"; label := lit "Sleep pattern";
       type := dropdown; choices := (Some [lit "Deep"; lit "Interrupted"; lit "REM rich"; lit "🤷‍♂️"]) |};
    {| id := lit "food"; label := lit "🍏 Food";
       type := text; choices := None |};
    {| id := lit "energy"; label := lit "⚡️ Energy level";
       type := dropdown; choices := (Some [lit "High"; lit "Medium"; lit "Low"]) |};
    {| id := lit "myday"; label := lit "📆 My Day";
       type := text; choices := None |};
    {| id := lit "sad"; label := lit "😔 What am I sad about?";
       type := dropdown; choices := (Some [lit "Nothing"; lit "Work"; lit "Relationships"; lit "Health"; lit "Other…"]) |};
    {| id := lit "body"; label := lit "❤️‍🩹 What does my body want?";
       type := dropdown; choices := (Some [lit "Rest"; lit "Exercise"; lit "Stretch"; lit "Hydrate"; lit "Healthy food"; lit "Other…"]) |};
    {| id := lit "media"; label := lit "🎦 Books / Podcasts / Media Reflection";
       type := text; choices := None |};
    {| id := lit "gratitude"; label := lit "🙏 What am I grateful for?";
       type := text; choices := None |};
    {| id := lit "triggers"; label := lit "❌ Triggers / Failures";
       type := text; choices := None |}
  ]
|}.

(** The record kept by the host in the plugin's data file: each top-level
    key of the settings may be there or not. *)
Record PersistedData := {
  saved_dailyFolder : option jsstring;
  saved_questions : option (list Question)
}.

(** [Object.assign(target, source)] on settings: the keys of [source]
    are copied over those of [target]; a [null] source is skipped. *)
Definition Object_assign (target : ReflectionSettings) (source : option PersistedData)
  : ReflectionSettings :=
  match source with
  | None => target
  | Some o =>
    {| dailyFolder := default (dailyFolder target) (saved_dailyFolder o);
       questions := default (questions target) (saved_questions o) |}
  end.

(** What [saveData(settings)] stores: every key of the settings. *)
Definition persist (s : ReflectionSettings) : PersistedData :=
  {| saved_dailyFolder := Some (dailyFolder s);
     saved_questions := Some (questions s) |}.

(** The top-level keys, to speak of them one by one. *)
Inductive key := dailyFolderKey | questionsKey.

Inductive value :=
  | FolderValue (s : jsstring)
  | QuestionsValue (qs : list Question).

Definition get (k : key) (s : ReflectionSettings) : value :=
  match k with
  | dailyFolderKey => FolderValue (dailyFolder s)
  | questionsKey => QuestionsValue (questions s)
  end.

Definition saved (k : key) (o : PersistedData) : option value :=
  match k with
  | dailyFolderKey => FolderValue <$> saved_dailyFolder o
  | questionsKey => QuestionsValue <$> saved_questions o
  end.

(** ** The running plugin: host state, plugin object and modal *)

Record TFile := { path : jsstring }.

(** The document tree of the modal. *)
Inductive element :=
  | Heading (level : nat) (text : jsstring)
  | TextAreaComponent (rows : N) (onChange : jsstring)
  | TextComponent (inputType : jsstring) (onChange : jsstring)
  | DropdownComponent (options : list (jsstring * jsstring)) (onChange : option jsstring)
  | ButtonComponent (buttonText : jsstring) (cta : bool).

(** Calls into the host, and of the modal's completion callback, in the
    order they happen. *)
Inductive call :=
  | GetAbstractFileByPath (p : jsstring)
  | Create (p data : jsstring)
  | Modify (f : TFile) (data : jsstring)
  | GetLeaf (newLeaf : bool)
  | OpenFile (f : TFile) (active : bool)
  | NewNotice (message : jsstring)
  | LoadData
  | SaveData (d : PersistedData)
  | OnSubmit (answers : gmap (list N) (list N)).

Record ReflectionModal := {
  answers : gmap (list N) (list N);
  contentEl : list element;
  opened : bool
}.

Record state := {
  (* host *)
  clock : nat -> Moment.t;      (* what the n-th reading of the clock gives *)
  reads : nat;                  (* readings made so far *)
  vault : gmap (list N) (list N);   (* path to content *)
  data : option PersistedData;  (* the plugin's data file *)
  calls : list call;
  (* plugin object *)
  settings : ReflectionSettings;
  (* the modal of the current form session *)
  modal : ReflectionModal
}.

Inductive error := TypeError.

Inductive outcome (A : Type) :=
  | Returned (a : A)
  | Thrown (e : error).
Arguments Returned {A} a.
Arguments Thrown {A} e.

(** Code that reads and changes the state and may throw. *)
Definition Eff (A : Type) : Type := state -> outcome A * state.

#[export] Instance Eff_ret : MRet Eff := fun A a s => (Returned a, s).

#[export] Instance Eff_bind : MBind Eff := fun A B k c s =>
  match c s with
  | (Returned a, s') => k a s'
  | (Thrown e, s') => (Thrown e, s')
  end.

Definition throw {A} (e : error) : Eff A := fun s => (Thrown e, s).

Definition gets {A} (f : state -> A) : Eff A := fun s => (Returned (f s), s).

Definition modify_state (f : state -> state) : Eff unit := fun s => (Returned tt, f s).

Definition set_reads (n : nat) (s : state) : state :=
  {| clock := clock s; reads := n; vault := vault s; data := data s;
     calls := calls s; settings := settings s; modal := modal s |}.

Definition set_vault (v : gmap (list N) (list N)) (s : state) : state :=
  {| clock := clock s; reads := reads s; vault := v; data := data s;
     calls := calls s; settings := settings s; modal := modal s |}.

Definition set_data (d : option PersistedData) (s : state) : state :=
  {| clock := clock s; reads := reads s; vault := vault s; data := d;
     calls := calls s; settings := settings s; modal := modal s |}.

Definition set_calls (c : list call) (s : state) : state :=
  {| clock := clock s; reads := reads s; vault := vault s; data := data s;
     calls := c; settings := settings s; modal := modal s |}.

Definition set_settings (r : ReflectionSettings) (s : state) : state :=
  {| clock := clock s; reads := reads s; vault := vault s; data := data s;
     calls := calls s; settings := r; modal := modal s |}.

Definition set_modal (m : ReflectionModal) (s : state) : state :=
  {| clock := clock s; reads := reads s; vault := vault s; data := data s;
     calls := calls s; settings := settings s; modal := m |}.

Definition record (c : call) : Eff unit :=
  modify_state (fun s => set_calls (calls s ++ [c]) s).

(** *** Host services *)

(** [moment()]: one more reading of the clock. *)
Definition moment : Eff Moment.t := fun s =>
  (Returned (clock s (reads s)), set_reads (S (reads s)) s).

(** [vault.getAbstractFileByPath(path)]: the file at [path], or [null]. *)
Definition getAbstractFileByPath (p : jsstring) : Eff (option TFile) :=
  record (GetAbstractFileByPath p);;
  v ← gets vault;
  mret (match v !! p with Some _ => Some {| path := p |} | None => None end).

(** [vault.create(path, data)] *)
Definition create (p data : jsstring) : Eff TFile :=
  record (Create p data);;
  modify_state (fun s => set_vault (<[p := data]> (vault s)) s);;
  mret {| path := p |}.

(** [vault.modify(file, data)]: the file's content becomes [data]. *)
Definition modify (f : TFile) (data : jsstring) : Eff unit :=
  record (Modify f data);;
  modify_state (fun s => set_vault (<[path f := data]> (vault s)) s).

(** [workspace.getLeaf(true)] and [leaf.openFile(file, { active: true })] *)
Definition getLeaf (newLeaf : bool) : Eff unit := record (GetLeaf newLeaf).

Definition openFile (f : TFile) (active : bool) : Eff unit := record (OpenFile f active).

Definition Notice (message : jsstring) : Eff unit := record (NewNotice message).

Definition loadData : Eff (option PersistedData) := record LoadData;; gets data.

Definition saveData (r : ReflectionSettings) : Eff unit :=
  record (SaveData (persist r));;
  modify_state (set_data (Some (persist r))).

(** ** Plain objects used as records *)

Module JsObject.

(** An answer record is an object written [{}]: it has its own entries,
    kept in a finite map from keys to strings, and it inherits the
    members of [Object.prototype]. *)

(** The function members of [Object.prototype], each with the name the
    function prints. *)
Definition prototype_functions : list (jsstring * jsstring) :=
  [(lit "constructor", lit "Object");
   (lit "__defineGetter__", lit "__defineGetter__");
   (lit "__defineSetter__", lit "__defineSetter__");
   (lit "hasOwnProperty", lit "hasOwnProperty");
   (lit "__lookupGetter__", lit "__lookupGetter__");
   (lit "__lookupSetter__", lit "__lookupSetter__");
   (lit "isPrototypeOf", lit "isPrototypeOf");
   (lit "propertyIsEnumerable", lit "propertyIsEnumerable");
   (lit "toString", lit "toString");
   (lit "valueOf", lit "valueOf");
   (lit "toLocaleString", lit "toLocaleString")].

Fixpoint assoc (k : jsstring) (l : list (jsstring * jsstring)) : option jsstring :=
  match l with
  | [] => None
  | (k', v) :: r => if bool_decide (k = k') then Some v else assoc k r
  end.

(** What the member of [Object.prototype] named [k], if there is one,
    prints as in a template literal: the accessor [__proto__] gives
    [Object.prototype] itself, the others are native functions (printed
    the way V8, the engine of the desktop host, prints them). *)
Definition inherited (k : jsstring) : option jsstring :=
  if bool_decide (k = lit "__proto__") then Some (lit "[object Object]")
  else (fun name => lit "function " ++ name ++ lit "() { [native code] }")
         <$> assoc k prototype_functions.

(** [`${o[k] ?? ""}`]: the own entry if there is one; else the inherited
    member, which is not nullish; else the empty string. *)
Definition get_or_empty (o : gmap (list N) (list N)) (k : jsstring) : jsstring :=
  match o !! k with
  | Some v => v
  | None => default [] (inherited k)
  end.

(** [o[k] = v] for a string [v]: an own entry is replaced; without one,
    the key [__proto__] reaches the setter of [Object.prototype], which
    ignores a string, and any other key gets a new own entry. *)
Definition set (k v : jsstring) (o : gmap (list N) (list N)) : gmap (list N) (list N) :=
  match o !! k with
  | Some _ => <[k := v]> o
  | None => if bool_decide (k = lit "__proto__") then o else <[k := v]> o
  end.

End JsObject.

(** ** DailyReflectionPlugin *)

(** One section of the note: [`### ${q.label}\n${value}\n\n`]. *)
Definition section_of (q : Question) (value : jsstring) : jsstring :=
  lit "### " ++ label q ++ lit "\n" ++ value ++ lit "\n\n".

(** [answers[q.id] ?? ""], as the template prints it. *)
Definition answer_of (answers : gmap (list N) (list N)) (q : Question) : jsstring :=
  JsObject.get_or_empty answers (id q).

(** The [for (const q of this.settings.questions)] loop of
    [writeDailyNote], started from [md]. *)
Definition build_markdown (answers : gmap (list N) (list N))
    (qs : list Question) (md : jsstring) : jsstring :=
  fold_left (fun md q => md ++ section_of q (answer_of answers q)) qs md.

(** write or update daily note *)
Definition writeDailyNote (answers : gmap (list N) (list N)) : Eff unit :=
  now ← moment;
  let fileName := Moment.format now Moment.isoDate ++ lit ".md" in
  folder ← gets (fun s => dailyFolder (settings s));
  let path := folder ++ lit "/" ++ fileName in
  existing ← getAbstractFileByPath path;
  file ← match existing with
         | Some f => mret f
         | None => create path []
         end;
  (* Build markdown template *)
  now' ← moment;
  let md := lit "# " ++ Moment.format now' Moment.longDate ++ lit "\n\n" in
  qs ← gets (fun s => questions (settings s));
  let md := build_markdown answers qs md in
  modify file md;;
  (* open in editor *)
  getLeaf true;;
  openFile file true.

Definition loadSettings : Eff unit :=
  d ← loadData;
  modify_state (set_settings (Object_assign DEFAULT_SETTINGS d)).

Definition saveSettings : Eff unit :=
  r ← gets settings;
  saveData r.

(** ** ReflectionModal *)

Definition set_answers (a : gmap (list N) (list N)) (m : ReflectionModal) : ReflectionModal :=
  {| answers := a; contentEl := contentEl m; opened := opened m |}.

Definition set_contentEl (c : list element) (m : ReflectionModal) : ReflectionModal :=
  {| answers := answers m; contentEl := c; opened := opened m |}.

Definition set_opened (b : bool) (m : ReflectionModal) : ReflectionModal :=
  {| answers := answers m; contentEl := contentEl m; opened := b |}.

Definition modify_modal (f : ReflectionModal -> ReflectionModal) : Eff unit :=
  modify_state (fun s => set_modal (f (modal s)) s).

(** [contentEl.empty()] and the creation of a child of [contentEl]. *)
Definition empty : Eff unit := modify_modal (set_contentEl []).

Definition createEl (e : element) : Eff unit :=
  modify_modal (fun m => set_contentEl (contentEl m ++ [e]) m).

Fixpoint forEach {A} (f : A -> Eff unit) (l : list A) : Eff unit :=
  match l with
  | [] => mret tt
  | x :: r => f x;; forEach f r
  end.

(** A component stays the last child of [contentEl] while it is set up:
    its methods change that child. *)
Fixpoint update_last (f : element -> element) (els : list element) : list element :=
  match els with
  | [] => []
  | e :: r =>
    match r with
    | [] => [f e]
    | _ :: _ => e :: update_last f r
    end
  end.

(** [d.addOption(value, display)] and [d.onChange(v => this.answers[q.id] = v)]
    on the dropdown [d] just created. *)
Definition addOption (value display : jsstring) : Eff unit :=
  modify_modal (fun m =>
    set_contentEl
      (update_last (fun e =>
         match e with
         | DropdownComponent options h => DropdownComponent (options ++ [(value, display)]) h
         | _ => e
         end) (contentEl m)) m).

Definition dropdown_onChange (qid : jsstring) : Eff unit :=
  modify_modal (fun m =>
    set_contentEl
      (update_last (fun e =>
         match e with
         | DropdownComponent options _ => DropdownComponent options (Some qid)
         | _ => e
         end) (contentEl m)) m).

(** The body of [this.settings.questions.forEach(q => ...)].  The text
    area and the number input are created with their properties and
    handler at once (the width of the text area is left out).  A dropdown
    is created first and filled next: when [q.choices] is absent, the
    [forEach] call on it throws and the component stays without options
    and without a change handler. *)
Definition render_question (q : Question) : Eff unit :=
  createEl (Heading 3 (label q));;
  match type q with
  | text => createEl (TextAreaComponent 3 (id q))
  | number => createEl (TextComponent (lit "number") (id q))
  | dropdown =>
    createEl (DropdownComponent [] None);;
    match choices q with
    | None => throw TypeError
    | Some cs =>
      forEach (fun c => addOption c c) cs;;
      dropdown_onChange (id q)
    end
  end.

Definition onOpen : Eff unit :=
  empty;;
  now ← moment;
  createEl (Heading 2 (lit "Daily Reflection – " ++ Moment.format now Moment.isoDate));;
  qs ← gets (fun s => questions (settings s));
  forEach render_question qs;;
  createEl (ButtonComponent (lit "Save") true).

Definition onClose : Eff unit := empty.

(** [new ReflectionModal(...)]: a fresh, empty answer record. *)
Definition new_ReflectionModal : Eff unit :=
  modify_state (set_modal {| answers := ∅; contentEl := []; opened := false |}).

(** The host's [Modal.open()] and [Modal.close()]. *)
Definition open : Eff unit := modify_modal (set_opened true);; onOpen.

Definition close : Eff unit :=
  o ← gets (fun s => opened (modal s));
  if (o : bool) then (modify_modal (set_opened false);; onClose) else mret tt.

(** The handler of every input: [v => this.answers[q.id] = v]. *)
Definition onChange (qid v : jsstring) : Eff unit :=
  modify_modal (fun m => set_answers (JsObject.set qid v (answers m)) m).

Section Modal.

(** The completion callback given to the constructor. *)
Variable onSubmit : gmap (list N) (list N) -> Eff unit.

(** The handler of the Save button. *)
Definition onClick : Eff unit :=
  close;;
  a ← gets (fun s => answers (modal s));
  record (OnSubmit a);;
  onSubmit a.

(** What the user does to the form: edit the [n]-th child of
    [contentEl], click it, or dismiss the modal. *)
Inductive event :=
  | Input (n : nat) (v : jsstring)
  | Click (n : nat)
  | Dismiss.

(** The host runs the handler the event reaches, if any; a closed modal
    is out of the page and receives nothing. *)
Definition dispatch (ev : event) : Eff unit :=
  m ← gets modal;
  if opened m then
    match ev with
    | Input n v =>
      match contentEl m !! n with
      | Some (TextAreaComponent _ qid) => onChange qid v
      | Some (TextComponent _ qid) => onChange qid v
      | Some (DropdownComponent _ (Some qid)) => onChange qid v
      | _ => mret tt
      end
    | Click n =>
      match contentEl m !! n with
      | Some (ButtonComponent _ _) => onClick
      | _ => mret tt
      end
    | Dismiss => close
    end
  else mret tt.

(** A form session: the host handles the events one after the other,
    each in a turn of its own: a handler that throws ends its turn only. *)
Fixpoint session (evs : list event) (s : state) : state :=
  match evs with
  | [] => s
  | ev :: r => session r (snd (dispatch ev s))
  end.

End Modal.

(** The callback of the command "open-daily-reflection". *)
Definition submit (a : gmap (list N) (list N)) : Eff unit :=
  writeDailyNote a;;
  Notice (lit "Journal saved ✔️").

Definition command : Eff unit := new_ReflectionModal;; open.

(** [onload]: the settings are loaded; the command and the settings tab
    it registers are [command] above and [folder_onChange] below. *)
Definition onload : Eff unit := loadSettings.

(** ** ReflectionSettingTab *)

(** The handler of the folder field. *)
Definition folder_onChange (value : jsstring) : Eff unit :=
  modify_state (fun s =>
    set_settings {| dailyFolder := JsString.or_else (JsString.trim value) (lit "Daily");
                    questions := questions (settings s) |} s);;
  saveSettings.

(** ** Observations and the specification's vocabulary *)

(** The calls a piece of code adds to the record when run from [s]. *)
Definition calls_of {A} (c : Eff A) (s : state) : list call :=
  drop (length (calls s)) (calls (snd (c s))).

(** The [vault.modify] calls among [cs]: which file, what content. *)
Definition modified (cs : list call) : list (TFile * jsstring) :=
  flat_map (fun c => match c with Modify f d => [(f, d)] | _ => [] end) cs.

(** The [vault.create] calls among [cs]. *)
Definition created (cs : list call) : list (jsstring * jsstring) :=
  flat_map (fun c => match c with Create p d => [(p, d)] | _ => [] end) cs.

(** The invocations of the completion callback among [cs]. *)
Definition submitted (cs : list call) : list (gmap (list N) (list N)) :=
  flat_map (fun c => match c with OnSubmit a => [a] | _ => [] end) cs.

(** The path a call into the vault or the workspace is about. *)
Definition target (c : call) : option jsstring :=
  match c with
  | GetAbstractFileByPath p => Some p
  | Create p _ => Some p
  | Modify f _ => Some (path f)
  | OpenFile f _ => Some (path f)
  | _ => None
  end.

(** The specification's path of the daily note:
    [{dailyFolder}/{today as YYYY-MM-DD}.md]. *)
Definition spec_path (folder : jsstring) (today : Moment.t) : jsstring :=
  folder ++ lit "/" ++ Moment.format today Moment.isoDate ++ lit ".md".

(** The specification's document: a top-level heading with the long
    date, then a subheading and a body line per question, the line empty
    when the question has no answer. *)
Definition spec_heading (today : Moment.t) : jsstring :=
  lit "# " ++ Moment.format today Moment.longDate ++ lit "\n\n".

Definition spec_section (answers : gmap (list N) (list N)) (q : Question) : jsstring :=
  lit "### " ++ label q ++ lit "\n" ++ default [] (answers !! id q) ++ lit "\n\n".

Definition spec_body (today : Moment.t) (qs : list Question)
    (answers : gmap (list N) (list N)) : jsstring :=
  spec_heading today ++ concat (map (spec_section answers) qs).

(** The document [writeDailyNote] builds, the loop written as a
    concatenation: the heading, then the section of every question with
    what the template prints for its answer. *)
Definition note_body (today : Moment.t) (qs : list Question)
    (answers : gmap (list N) (list N)) : jsstring :=
  spec_heading today ++ concat (map (fun q => section_of q (answer_of answers q)) qs).

(** The specification's well-formed question: a dropdown has its
    choices. *)
Definition well_formed (q : Question) : bool :=
  match type q, choices q with
  | dropdown, None => false
  | _, _ => true
  end.

(** The children of [contentEl] the specification's form has for a
    question: its label and its input. *)
Definition spec_field (q : Question) : list element :=
  [Heading 3 (label q);
   match type q with
   | text => TextAreaComponent 3 (id q)
   | number => TextComponent (lit "number") (id q)
   | dropdown => DropdownComponent (map (fun c => (c, c)) (default [] (choices q))) (Some (id q))
   end].

(** The key an input of the form stores its value under. *)
Definition handler_key (e : option element) : option jsstring :=
  match e with
  | Some (TextAreaComponent _ qid) => Some qid
  | Some (TextComponent _ qid) => Some qid
  | Some (DropdownComponent _ (Some qid)) => Some qid
  | _ => None
  end.

(** The answers the handlers of the inputs have stored after the edits
    among [evs], starting from [a]. *)
Definition accumulate (els : list element) (evs : list event)
    (a : gmap (list N) (list N)) : gmap (list N) (list N) :=
  fold_left (fun a ev =>
    match ev with
    | Input n v =>
      match handler_key (els !! n) with
      | Some qid => JsObject.set qid v a
      | None => a
      end
    | _ => a
    end) evs a.

(** The submit action: a click that reaches a button of the form. *)
Definition is_save (els : list element) (ev : event) : bool :=
  match ev with
  | Click n => match els !! n with Some (ButtonComponent _ _) => true | _ => false end
  | _ => false
  end.

Definition is_dismiss (ev : event) : bool :=
  match ev with Dismiss => true | _ => false end.

(** The specification's form: the title with the date, the fields of the
    questions in order, the Save button. *)
Definition spec_title (today : Moment.t) : element :=
  Heading 2 (lit "Daily Reflection – " ++ Moment.format today Moment.isoDate).

Definition spec_form (today : Moment.t) (qs : list Question) : list element :=
  spec_title today :: flat_map spec_field qs ++ [ButtonComponent (lit "Save") true].

(** The calls recorded between two states of a run. *)
Definition calls_since (s s' : state) : list call :=
  drop (length (calls s)) (calls s').

(** The modal after [close()]: out of the page, its content emptied, its
    answers kept. *)
Definition closed_modal (m : ReflectionModal) : ReflectionModal :=
  {| answers := answers m; contentEl := []; opened := false |}.

(** The state with [els] appended to the modal's [contentEl]. *)
Definition with_children (els : list element) (s : state) : state :=
  set_modal (set_contentEl (contentEl (modal s) ++ els) (modal s)) s.

(** ** Sample data *)

Definition q_todo : Question :=
  {| id := lit "todo"; label := lit "✅ What I want to accomplish today";
     type := text; choices := None |}.

Definition q_dreams : Question :=
  {| id := lit "dreams"; label := lit "😴 Dreams"; type := text; choices := None |}.

(** Two questions whose ids name members of [Object.prototype]. *)
Definition q_built : Question :=
  {| id := lit "constructor"; label := lit "Built today"; type := text; choices := None |}.

Definition q_proto : Question :=
  {| id := lit "__proto__"; label := lit "Prototype"; type := text; choices := None |}.

(** A dropdown whose choices were left out of the data file. *)
Definition q_mood : Question :=
  {| id := lit "mood"; label := lit "Mood"; type := dropdown; choices := None |}.

(** A plugin on 2024-03-07 with an empty vault and two questions. *)
Definition sample_state : state := {|
  clock := fun _ => Moment.ofCivil 2024 3 7;
  reads := 0;
  vault := ∅;
  data := None;
  calls := [];
  settings := {| dailyFolder := lit "Daily"; questions := [q_todo; q_dreams] |};
  modal := {| answers := ∅; contentEl := []; opened := false |}
|}.

(** A plugin whose data file holds a dropdown without choices. *)
Definition malformed_state : state := {|
  clock := fun _ => Moment.ofCivil 2024 3 7;
  reads := 0;
  vault := ∅;
  data := Some {| saved_dailyFolder := None; saved_questions := Some [q_todo; q_mood; q_dreams] |};
  calls := [];
  settings := DEFAULT_SETTINGS;
  modal := {| answers := ∅; contentEl := []; opened := false |}
|}.

(** The sample plugin with the two questions above. *)
Definition inherited_state : state := {|
  clock := fun _ => Moment.ofCivil 2024 3 7;
  reads := 0;
  vault := ∅;
  data := None;
  calls := [];
  settings := {| dailyFolder := lit "Daily"; questions := [q_built; q_proto] |};
  modal := {| answers := ∅; contentEl := []; opened := false |}
|}.

(** ** More vocabulary: the children of the form *)

(** The keys of the inputs among [els], in order. *)
Definition keys_of (els : list element) : list jsstring :=
  omap (fun e => handler_key (Some e)) els.

Definition is_button (e : element) : bool :=
  match e with ButtonComponent _ _ => true | _ => false end.

(** An edit of a field. *)
Definition is_input (ev : event) : bool :=
  match ev with Input _ _ => true | _ => false end.

(** The input the form has for a question. *)
Definition spec_input (q : Question) : element :=
  match type q with
  | text => TextAreaComponent 3 (id q)
  | number => TextComponent (lit "number") (id q)
  | dropdown => DropdownComponent (map (fun c => (c, c)) (default [] (choices q))) (Some (id q))
  end.

(** A plugin that is started for the first time: no data file yet. *)
Definition first_run_state : state := {|
  clock := fun n => Moment.ofCivil 2024 3 (7 + Z.of_nat n);
  reads := 0;
  vault := {[ lit "Daily/2024-03-07.md" := lit "written by hand" ]};
  data := None;
  calls := [];
  settings := {| dailyFolder := []; questions := [] |};
  modal := {| answers := {[ lit "todo" := lit "left over" ]}; contentEl := []; opened := false |}
|}.

(** The sample plugin with a clock that gives the next day at every
    reading. *)
Definition week_state : state := {|
  clock := fun n => Moment.ofCivil 2024 3 (7 + Z.of_nat n);
  reads := 0;
  vault := ∅;
  data := None;
  calls := [];
  settings := {| dailyFolder := lit "Daily"; questions := [q_todo; q_dreams] |};
  modal := {| answers := ∅; contentEl := []; opened := false |}
|}.

(** * Properties *)

(** ** Literals, dates *)

Example lit_ascii : lit "Daily" = [68; 97; 105; 108; 121].
Proof. reflexivity. Qed.

Example lit_check_mark : lit "✅" = [9989].
Proof. reflexivity. Qed.

Example lit_sleeping_face : lit "😴" = [55357; 56884].
Proof. reflexivity. Qed.

Example lit_line_feeds : lit "a\n\n" = [97; 10; 10].
Proof. reflexivity. Qed.

Example trim_spaces : JsString.trim (lit "  my notes \n") = lit "my notes".
Proof. reflexivity. Qed.

Example trim_no_break_space : JsString.trim [160; 97; 32; 98; 8232; 9] = [97; 32; 98].
Proof. reflexivity. Qed.

Example of_N_2024 : JsString.of_N 2024 = lit "2024".
Proof. reflexivity. Qed.

Example iso_2024_03_07 :
  Moment.format (Moment.ofCivil 2024 3 7) Moment.isoDate = lit "2024-03-07".
Proof. vm_compute. reflexivity. Qed.

Example long_2024_03_07 :
  Moment.format (Moment.ofCivil 2024 3 7) Moment.longDate = lit "Thursday, March 7 2024".
Proof. vm_compute. reflexivity. Qed.

Example long_1999_12_31 :
  Moment.format (Moment.ofCivil 1999 12 31) Moment.longDate = lit "Friday, December 31 1999".
Proof. vm_compute. reflexivity. Qed.

Example civil_epoch : Moment.civil {| Moment.dayNumber := 0 |} = (1970, 1, 1)%Z.
Proof. vm_compute. reflexivity. Qed.

Example civil_leap_day : Moment.civil (Moment.ofCivil 2024 2 29) = (2024, 2, 29)%Z.
Proof. vm_compute. reflexivity. Qed.

(** ** writeDailyNote, step by step *)

Arguments build_markdown : simpl never.
Arguments JsString.lit : simpl never.
Arguments Moment.format : simpl never.

(** The loop appends the sections in order. *)
Lemma build_markdown_concat (a : gmap (list N) (list N)) (qs : list Question) (md : jsstring) :
  build_markdown a qs md
  = md ++ concat (map (fun q => section_of q (answer_of a q)) qs).
Proof.
  unfold build_markdown. revert md.
  induction qs as [|q qs IH]; intros md; simpl.
  - by rewrite app_nil_r.
  - rewrite IH. by rewrite <- app_assoc.
Qed.

(** Unfolds the plumbing of [Eff] and the host services, nothing else. *)
Ltac eff_run :=
  cbv beta iota zeta delta
    [mbind mret Eff_bind Eff_ret throw gets modify_state record moment
     getAbstractFileByPath create modify getLeaf openFile Notice loadData
     saveData modify_modal empty createEl
     set_reads set_vault set_data set_calls set_settings set_modal
     set_answers set_contentEl set_opened
     clock reads vault data calls settings modal answers contentEl opened
     path fst snd].

(** What a run of [writeDailyNote] does to the state, in full. *)
Lemma writeDailyNote_run (a : gmap (list N) (list N)) (s : state) :
  let p := spec_path (dailyFolder (settings s)) (clock s (reads s)) in
  let md := note_body (clock s (S (reads s))) (questions (settings s)) a in
  let f := {| path := p |} in
  writeDailyNote a s =
    (Returned tt,
     {| clock := clock s;
        reads := S (S (reads s));
        vault := <[p := md]> (vault s);
        data := data s;
        calls := calls s ++ GetAbstractFileByPath p
                   :: (if vault s !! p is Some _ then [] else [Create p []])
                   ++ [Modify f md; GetLeaf true; OpenFile f true];
        settings := settings s;
        modal := modal s |}).
Proof.
  intros p md f. subst p md f. unfold spec_path, note_body, spec_heading.
  rewrite <- build_markdown_concat.
  destruct s as [ck rd v d cs st m].
  unfold writeDailyNote. eff_run.
  destruct (v !! _) as [c|]; eff_run.
  - by rewrite <- !app_assoc.
  - rewrite insert_insert_eq. by rewrite <- !app_assoc.
Qed.

Lemma writeDailyNote_calls (a : gmap (list N) (list N)) (s : state) :
  let p := spec_path (dailyFolder (settings s)) (clock s (reads s)) in
  let md := note_body (clock s (S (reads s))) (questions (settings s)) a in
  calls_of (writeDailyNote a) s =
    GetAbstractFileByPath p
      :: (if vault s !! p is Some _ then [] else [Create p []])
      ++ [Modify {| path := p |} md; GetLeaf true; OpenFile {| path := p |} true].
Proof.
  intros p md. unfold calls_of.
  pose proof (writeDailyNote_run a s) as Hrun. cbv zeta in Hrun. rewrite Hrun.
  cbn [snd calls]. apply drop_app_length.
Qed.

Lemma writeDailyNote_vault (a : gmap (list N) (list N)) (s : state) :
  vault (snd (writeDailyNote a s)) =
    <[spec_path (dailyFolder (settings s)) (clock s (reads s)) :=
        note_body (clock s (S (reads s))) (questions (settings s)) a]> (vault s).
Proof.
  pose proof (writeDailyNote_run a s) as Hrun. cbv zeta in Hrun. by rewrite Hrun.
Qed.

Lemma writeDailyNote_modified (a : gmap (list N) (list N)) (s : state) :
  modified (calls_of (writeDailyNote a) s) =
    [({| path := spec_path (dailyFolder (settings s)) (clock s (reads s)) |},
      note_body (clock s (S (reads s))) (questions (settings s)) a)].
Proof.
  pose proof (writeDailyNote_calls a s) as Hc. cbv zeta in Hc. rewrite Hc.
  by destruct (vault s !! _).
Qed.

(** With a host whose calls return, [writeDailyNote] returns. *)
Lemma writeDailyNote_returns (a : gmap (list N) (list N)) (s : state) :
  fst (writeDailyNote a s) = Returned tt.
Proof.
  pose proof (writeDailyNote_run a s) as Hrun. cbv zeta in Hrun. by rewrite Hrun.
Qed.

(** The sections of the note, one per question and in order: the
    subheading with the label, the line the template prints for the
    answer, a blank line. *)
Lemma note_body_sections (today : Moment.t) (qs : list Question)
    (a : gmap (list N) (list N)) :
  ∃ sections : list jsstring,
    note_body today qs a
      = (lit "# " ++ Moment.format today Moment.longDate ++ lit "\n\n") ++ concat sections
    ∧ Forall2 (fun q sec =>
          sec = lit "### " ++ label q ++ lit "\n"
                  ++ JsObject.get_or_empty a (id q) ++ lit "\n\n")
        qs sections.
Proof.
  exists (map (fun q => section_of q (answer_of a q)) qs). split; [done|].
  induction qs; constructor; auto.
Qed.

(** Where no read goes through [Object.prototype], the note is the
    specification's document. *)
Lemma note_body_spec_body (today : Moment.t) (qs : list Question)
    (a : gmap (list N) (list N)) :
  Forall (fun q => is_Some (a !! id q) ∨ JsObject.inherited (id q) = None) qs ->
  note_body today qs a = spec_body today qs a.
Proof.
  intros Hqs. unfold note_body, spec_body. f_equal. f_equal.
  apply map_ext_in. intros q Hq.
  eapply Forall_forall in Hqs; [|apply list_elem_of_In; exact Hq].
  unfold section_of, spec_section, answer_of, JsObject.get_or_empty.
  destruct (a !! id q) as [v|] eqn:Ha; [done|].
  destruct Hqs as [[v Hv]|Hnone]; [done|]. by rewrite Hnone.
Qed.

(** C1: the body [writeDailyNote] renders has, after the date heading and
    for every question in order, a subheading with the label and a line
    with the answer stored under the question's id, empty when there is
    none.  The code departs from this where an id names a member of
    [Object.prototype]: with an empty answer record and the questions
    "constructor" and "__proto__", the lines are the inherited members as
    the template prints them, where the specification's document has
    empty lines. *)
Theorem writeDailyNote_body_inherited_ids :
  map snd (modified (calls_of (writeDailyNote ∅) inherited_state))
    = [ lit "# Thursday, March 7 2024\n\n### Built today\nfunction Object() { [native code] }\n\n### Prototype\n[object Object]\n\n" ]
  ∧ vault (snd (writeDailyNote ∅ inherited_state)) !! lit "Daily/2024-03-07.md"
    = Some (lit "# Thursday, March 7 2024\n\n### Built today\nfunction Object() { [native code] }\n\n### Prototype\n[object Object]\n\n")
  ∧ spec_body (Moment.ofCivil 2024 3 7) (questions (settings inherited_state)) ∅
    = lit "# Thursday, March 7 2024\n\n### Built today\n\n\n### Prototype\n\n\n".
Proof.
  split; [|split].
  - rewrite writeDailyNote_modified. vm_compute. reflexivity.
  - rewrite writeDailyNote_vault. vm_compute. reflexivity.
  - vm_compute. reflexivity.
Qed.

(** C2: with the answers [{todo: "Ship the spec"}] and the questions
    "todo" and "dreams", the rendered body is the date heading, then the
    section of "todo" with its answer, then the section of "dreams" with
    an empty line. *)
Theorem writeDailyNote_ship_the_spec (s : state) :
  questions (settings s) = [q_todo; q_dreams] ->
  map snd (modified (calls_of (writeDailyNote {[ lit "todo" := lit "Ship the spec" ]}) s)) =
    [ (lit "# " ++ Moment.format (clock s (S (reads s))) Moment.longDate ++ lit "\n\n")
      ++ lit "### ✅ What I want to accomplish today\nShip the spec\n\n"
      ++ lit "### 😴 Dreams\n\n\n" ].
Proof.
  intros Hqs. rewrite writeDailyNote_modified, Hqs.
  cbn [map snd]. unfold note_body, spec_heading.
  do 2 f_equal; vm_compute; reflexivity.
Qed.

Lemma writeDailyNote_ship_the_spec_sample :
  map snd (modified (calls_of (writeDailyNote {[ lit "todo" := lit "Ship the spec" ]})
                       sample_state)) =
    [ lit "# Thursday, March 7 2024\n\n### ✅ What I want to accomplish today\nShip the spec\n\n### 😴 Dreams\n\n\n" ].
Proof.
  rewrite (writeDailyNote_ship_the_spec sample_state); [|reflexivity].
  vm_compute. reflexivity.
Defined.



(** C6: [writeDailyNote] first asks the vault for the file at the path.
    When there is none it creates one with empty content and then
    overwrites it with the rendered body; when there is one it creates
    nothing and overwrites that file.  Either way the content at the path
    is the rendered body afterwards, whatever it was before. *)
Theorem writeDailyNote_create_or_reuse (s : state) (a : gmap (list N) (list N)) :
  let p := spec_path (dailyFolder (settings s)) (clock s (reads s)) in
  let md := note_body (clock s (S (reads s))) (questions (settings s)) a in
  let f := {| path := p |} in
  calls_of (writeDailyNote a) s =
    match vault s !! p with
    | None => [GetAbstractFileByPath p; Create p [];
               Modify f md; GetLeaf true; OpenFile f true]
    | Some _ => [GetAbstractFileByPath p;
                 Modify f md; GetLeaf true; OpenFile f true]
    end
  ∧ created (calls_of (writeDailyNote a) s) =
      match vault s !! p with
      | None => [(p, [])]
      | Some _ => []
      end
  ∧ vault (snd (writeDailyNote a s)) = <[p := md]> (vault s)
  ∧ vault (snd (writeDailyNote a s)) !! p = Some md.
Proof.
  intros p md f. split; [|split; [|split]].
  - pose proof (writeDailyNote_calls a s) as Hc. cbv zeta in Hc. rewrite Hc.
    fold p. by destruct (vault s !! p).
  - pose proof (writeDailyNote_calls a s) as Hc. cbv zeta in Hc. rewrite Hc.
    fold p. by destruct (vault s !! p).
  - apply writeDailyNote_vault.
  - rewrite writeDailyNote_vault. apply lookup_insert_eq.
Qed.

(** The state after [writeDailyNote] keeps the clock, the settings and
    the data file, and has read the clock twice. *)
Lemma writeDailyNote_frame (a : gmap (list N) (list N)) (s : state) :
  let s' := snd (writeDailyNote a s) in
  clock s' = clock s ∧ reads s' = S (S (reads s)) ∧ settings s' = settings s
  ∧ data s' = data s ∧ modal s' = modal s.
Proof.
  pose proof (writeDailyNote_run a s) as Hrun. cbv zeta in Hrun.
  cbv zeta. by rewrite Hrun.
Qed.

(** C4: two writes on the same calendar day, with the answers [a1] and
    then [a2], leave the vault as the write of [a2] alone does: the note
    holds the body rendered from [a2] and nothing of [a1]. *)
Theorem writeDailyNote_twice (s : state) (a1 a2 : gmap (list N) (list N))
    (today : Moment.t) :
  (∀ n : nat, (reads s ≤ n < reads s + 4)%nat -> clock s n = today) ->
  let twice := snd ((writeDailyNote a1;; writeDailyNote a2) s) in
  let once := snd (writeDailyNote a2 s) in
  vault twice = vault once
  ∧ vault twice !! spec_path (dailyFolder (settings s)) today
      = Some (note_body today (questions (settings s)) a2).
Proof.
  intros Hday twice once.
  assert (Htwice : twice = snd (writeDailyNote a2 (snd (writeDailyNote a1 s)))).
  { subst twice. unfold mbind, Eff_bind.
    pose proof (writeDailyNote_returns a1 s) as Hret.
    destruct (writeDailyNote a1 s) as [o s1]. simpl in Hret. by subst o. }
  destruct (writeDailyNote_frame a1 s) as (Hclock & Hreads & Hsettings & _).
  cbv zeta in Hclock, Hreads, Hsettings.
  assert (Hv : vault twice =
               <[spec_path (dailyFolder (settings s)) today :=
                   note_body today (questions (settings s)) a2]> (vault s)).
  { rewrite Htwice, writeDailyNote_vault, Hclock, Hreads, Hsettings.
    rewrite writeDailyNote_vault.
    rewrite !Hday by lia. apply insert_insert_eq. }
  split.
  - rewrite Hv. subst once. rewrite writeDailyNote_vault.
    by rewrite !Hday by lia.
  - rewrite Hv. apply lookup_insert_eq.
Qed.

Lemma writeDailyNote_twice_sample :
  vault (snd ((writeDailyNote {[ lit "todo" := lit "Ship the spec" ]};;
               writeDailyNote {[ lit "dreams" := lit "None" ]}) sample_state))
    !! lit "Daily/2024-03-07.md"
  = Some (lit "# Thursday, March 7 2024\n\n### ✅ What I want to accomplish today\n\n\n### 😴 Dreams\nNone\n\n").
Proof.
  destruct (writeDailyNote_twice sample_state
              {[ lit "todo" := lit "Ship the spec" ]} {[ lit "dreams" := lit "None" ]}
              (Moment.ofCivil 2024 3 7)) as [_ Hnote].
  - intros n _. reflexivity.
  - cbv zeta in Hnote.
    replace (lit "Daily/2024-03-07.md")
      with (spec_path (dailyFolder (settings sample_state)) (Moment.ofCivil 2024 3 7))
      by (vm_compute; reflexivity).
    rewrite Hnote. vm_compute. reflexivity.
Defined.

(** C10: two answer records that agree on the ids of the configured
    questions make [writeDailyNote] do the same: the same calls with the
    same body, the same vault.  Entries under other keys have no effect. *)
Theorem writeDailyNote_ignores_other_keys (s : state)
    (a1 a2 : gmap (list N) (list N)) :
  (∀ q, q ∈ questions (settings s) -> a1 !! id q = a2 !! id q) ->
  writeDailyNote a1 s = writeDailyNote a2 s.
Proof.
  intros Hagree.
  pose proof (writeDailyNote_run a1 s) as H1. cbv zeta in H1.
  pose proof (writeDailyNote_run a2 s) as H2. cbv zeta in H2.
  rewrite H1, H2.
  assert (Hbody : ∀ today, note_body today (questions (settings s)) a1
                           = note_body today (questions (settings s)) a2).
  { intros today. unfold note_body. do 2 f_equal.
    apply map_ext_in. intros q Hq. unfold answer_of, JsObject.get_or_empty.
    rewrite Hagree; [done|]. by apply list_elem_of_In. }
  by rewrite Hbody.
Qed.

Lemma writeDailyNote_ignores_other_keys_sample :
  writeDailyNote {[ lit "todo" := lit "Ship the spec" ]} sample_state
  = writeDailyNote {[ lit "todo" := lit "Ship the spec"; lit "weather" := lit "rain" ]}
      sample_state.
Proof.
  apply writeDailyNote_ignores_other_keys.
  intros q Hq. cbn [sample_state settings questions] in Hq.
  apply list_elem_of_In in Hq. destruct Hq as [<-|[<-|[]]]; vm_compute; reflexivity.
Defined.

(** ** Settings: load, the folder field *)

Lemma loadSettings_run (s : state) :
  loadSettings s =
    (Returned tt,
     set_settings (Object_assign DEFAULT_SETTINGS (data s))
       (set_calls (calls s ++ [LoadData]) s)).
Proof. by destruct s. Qed.

(** C3: the settings made at load are a shallow merge of the data file
    over the defaults: a top-level key (dailyFolder, questions) missing
    from the data file has the default's value, a key that is there has
    the data file's value, whole: the list of questions is the stored
    list, not the default list extended or merged with it. *)
Theorem loadSettings_shallow_merge (s : state) :
  let loaded := settings (snd (loadSettings s)) in
  (∀ k : key, get k loaded = default (get k DEFAULT_SETTINGS) (data s ≫= saved k))
  ∧ dailyFolder loaded = default (lit "Daily") (data s ≫= saved_dailyFolder)
  ∧ questions loaded = default (questions DEFAULT_SETTINGS) (data s ≫= saved_questions).
Proof.
  intros loaded. subst loaded. rewrite loadSettings_run.
  destruct s as [ck rd v [[[folder|] [qs|]]|] cs st m]; repeat split;
    try (intros []; reflexivity); reflexivity.
Qed.

(** What is saved is what is loaded next. *)
Lemma loadSettings_after_save (s : state) :
  settings (snd (loadSettings (snd (saveSettings s)))) = settings s.
Proof. by destruct s as [ck rd v d cs [folder qs] m]. Qed.

Lemma trimStart_split (s : jsstring) :
  ∃ l, s = l ++ JsString.trimStart s ∧ forallb JsString.is_space l = true.
Proof.
  induction s as [|c s (l & Hs & Hl)]; simpl.
  - by exists [].
  - destruct (JsString.is_space c) eqn:Hc.
    + exists (c :: l). simpl. rewrite Hc, Hl. split; [by f_equal|done].
    + by exists [].
Qed.

Lemma trimStart_head (s : jsstring) :
  from_option JsString.is_space false (head (JsString.trimStart s)) = false.
Proof.
  induction s as [|c s IH]; simpl; [done|].
  destruct (JsString.is_space c) eqn:Hc; [done|]. simpl. by rewrite Hc.
Qed.

Lemma forallb_rev {A} (f : A -> bool) (l : list A) :
  forallb f (rev l) = forallb f l.
Proof.
  induction l as [|x l IH]; simpl; [done|].
  rewrite forallb_app, IH. simpl. rewrite andb_true_r. apply andb_comm.
Qed.

Lemma trimEnd_split (s : jsstring) :
  ∃ r, s = JsString.trimEnd s ++ r ∧ forallb JsString.is_space r = true.
Proof.
  unfold JsString.trimEnd.
  destruct (trimStart_split (rev s)) as (l & Hs & Hl).
  exists (rev l). split.
  - rewrite <- rev_app_distr, <- Hs. by rewrite rev_involutive.
  - by rewrite forallb_rev.
Qed.

Lemma trimEnd_last (s : jsstring) :
  from_option JsString.is_space false (last (JsString.trimEnd s)) = false.
Proof.
  unfold JsString.trimEnd. rewrite rev_alt. fold (reverse (JsString.trimStart (rev s))).
  rewrite last_reverse. apply trimStart_head.
Qed.

(** Trimming an already left-trimmed string keeps its first unit. *)
Lemma trimEnd_head (s : jsstring) :
  from_option JsString.is_space false (head s) = false ->
  from_option JsString.is_space false (head (JsString.trimEnd s)) = false.
Proof.
  intros Hs. destruct (trimEnd_split s) as (r & Heq & _).
  destruct (JsString.trimEnd s) as [|c t]; [done|].
  rewrite Heq in Hs. exact Hs.
Qed.

(** [trim] removes a run of white space at each end, and all of it. *)
Lemma trim_spec (s : jsstring) :
  (∃ l r, s = l ++ JsString.trim s ++ r
          ∧ forallb JsString.is_space l = true
          ∧ forallb JsString.is_space r = true)
  ∧ from_option JsString.is_space false (head (JsString.trim s)) = false
  ∧ from_option JsString.is_space false (last (JsString.trim s)) = false.
Proof.
  unfold JsString.trim. split; [|split].
  - destruct (trimStart_split s) as (l & Hl & Hls).
    destruct (trimEnd_split (JsString.trimStart s)) as (r & Hr & Hrs).
    exists l, r. by rewrite <- Hr.
  - apply trimEnd_head, trimStart_head.
  - apply trimEnd_last.
Qed.

Lemma folder_onChange_run (value : jsstring) (s : state) :
  let r := {| dailyFolder := JsString.or_else (JsString.trim value) (lit "Daily");
              questions := questions (settings s) |} in
  folder_onChange value s =
    (Returned tt,
     set_data (Some (persist r))
       (set_calls (calls s ++ [SaveData (persist r)]) (set_settings r s))).
Proof. by destruct s. Qed.

(** C8: the folder field stores its value trimmed of the white space
    around it, or "Daily" when nothing is left, in the settings and in
    the data file; and a data file without the key gives "Daily" at
    load. *)
Theorem folder_onChange_trims (s : state) (value : jsstring) :
  let stored := dailyFolder (settings (snd (folder_onChange value s))) in
  let trimmed := JsString.trim value in
  stored = match trimmed with [] => lit "Daily" | _ :: _ => trimmed end
  ∧ (data (snd (folder_onChange value s)) ≫= saved_dailyFolder) = Some stored
  ∧ (∃ l r, value = l ++ trimmed ++ r
            ∧ forallb JsString.is_space l = true
            ∧ forallb JsString.is_space r = true)
  ∧ from_option JsString.is_space false (head trimmed) = false
  ∧ from_option JsString.is_space false (last trimmed) = false
  ∧ dailyFolder (settings (snd (loadSettings s)))
      = default (lit "Daily") (data s ≫= saved_dailyFolder).
Proof.
  intros stored trimmed. subst stored.
  pose proof (folder_onChange_run value s) as Hrun. cbv zeta in Hrun. rewrite Hrun.
  destruct (trim_spec value) as (Hsplit & Hhead & Hlast).
  repeat split; try done.
  - unfold JsString.or_else. fold trimmed. by destruct trimmed.
  - apply (loadSettings_shallow_merge s).
Qed.

(** ** The form *)

Lemma with_children_nil (s : state) : with_children [] s = s.
Proof.
  destruct s as [ck rd v d cs st [a els o]]. unfold with_children. eff_run.
  by rewrite app_nil_r.
Qed.

Lemma with_children_app (e1 e2 : list element) (s : state) :
  with_children e2 (with_children e1 s) = with_children (e1 ++ e2) s.
Proof.
  destruct s as [ck rd v d cs st [a els o]]. unfold with_children. eff_run.
  by rewrite app_assoc.
Qed.

Lemma update_last_snoc (f : element -> element) (els : list element) (e : element) :
  update_last f (els ++ [e]) = els ++ [f e].
Proof.
  induction els as [|e0 els IH]; [done|].
  cbn [app update_last]. rewrite IH. by destruct els.
Qed.

(** Filling the dropdown that was just created. *)
Lemma forEach_addOption (cs : list jsstring) (s : state) (els : list element)
    (options : list (jsstring * jsstring)) :
  contentEl (modal s) = els ++ [DropdownComponent options None] ->
  forEach (fun c => addOption c c) cs s =
    (Returned tt,
     set_modal (set_contentEl
                  (els ++ [DropdownComponent (options ++ map (fun c => (c, c)) cs) None])
                  (modal s)) s).
Proof.
  revert s options. induction cs as [|c cs IH]; intros s options Hels;
    destruct s as [ck rd v d cl st [a e o]]; cbn [modal contentEl] in Hels; subst e.
  - cbn [forEach map]. by rewrite app_nil_r.
  - cbn [forEach map]. unfold mbind, Eff_bind, addOption at 1. eff_run.
    rewrite update_last_snoc.
    rewrite (IH _ (options ++ [(c, c)])) by reflexivity.
    eff_run. by rewrite <- app_assoc.
Qed.

Lemma render_question_ok (q : Question) (s : state) :
  well_formed q = true ->
  render_question q s = (Returned tt, with_children (spec_field q) s).
Proof.
  destruct s as [ck rd v d cs st [a els o]], q as [i l [] [c|]]; try done;
    intros _; unfold render_question, with_children, spec_field; eff_run;
    cbn [type choices id label default from_option]; eff_run;
    try (by rewrite <- app_assoc).
  rewrite (forEach_addOption c _ (els ++ [Heading 3 l]) []) by done.
  unfold dropdown_onChange. eff_run. rewrite update_last_snoc.
  by rewrite <- app_assoc.
Qed.

Lemma render_question_throws (q : Question) (s : state) :
  well_formed q = false ->
  render_question q s =
    (Thrown TypeError,
     with_children [Heading 3 (label q); DropdownComponent [] None] s).
Proof.
  destruct s as [ck rd v d cs st [a els o]], q as [i l [] [c|]]; try done;
    intros _; unfold render_question, with_children; eff_run;
    cbn [type choices id label]; eff_run;
    by rewrite <- app_assoc.
Qed.

Lemma forEach_render_ok (qs : list Question) (s : state) :
  forallb well_formed qs = true ->
  forEach render_question qs s = (Returned tt, with_children (flat_map spec_field qs) s).
Proof.
  revert s. induction qs as [|q qs IH]; intros s Hwf.
  - by rewrite with_children_nil.
  - cbn [forallb] in Hwf. apply andb_prop in Hwf as [Hq Hqs].
    cbn [forEach flat_map]. unfold mbind, Eff_bind.
    rewrite (render_question_ok q s Hq), (IH _ Hqs).
    by rewrite with_children_app.
Qed.

Lemma forEach_render_throws (pre : list Question) (q : Question)
    (post : list Question) (s : state) :
  forallb well_formed pre = true ->
  well_formed q = false ->
  forEach render_question (pre ++ q :: post) s =
    (Thrown TypeError,
     with_children (flat_map spec_field pre
                      ++ [Heading 3 (label q); DropdownComponent [] None]) s).
Proof.
  revert s. induction pre as [|q0 pre IH]; intros s Hpre Hq.
  - cbn [app forEach flat_map]. unfold mbind, Eff_bind.
    by rewrite (render_question_throws q s Hq).
  - cbn [forallb] in Hpre. apply andb_prop in Hpre as [Hq0 Hpre].
    cbn [app forEach flat_map]. unfold mbind, Eff_bind.
    rewrite (render_question_ok q0 s Hq0), (IH _ Hpre Hq).
    by rewrite with_children_app, app_assoc.
Qed.

(** A list with an element that fails a test splits at the first one. *)
Lemma forallb_false_split {A} (f : A -> bool) (l : list A) :
  forallb f l = false ->
  ∃ pre x post, l = pre ++ x :: post ∧ forallb f pre = true ∧ f x = false.
Proof.
  induction l as [|x l IH]; [done|]. cbn [forallb].
  destruct (f x) eqn:Hx; cbn [andb]; intros Hl.
  - destruct (IH Hl) as (pre & y & post & -> & Hpre & Hy).
    exists (x :: pre), y, post. cbn [forallb]. by rewrite Hx, Hpre.
  - by exists [], x, l.
Qed.

Lemma onOpen_ok (s : state) :
  forallb well_formed (questions (settings s)) = true ->
  onOpen s =
    (Returned tt,
     set_modal (set_contentEl (spec_form (clock s (reads s)) (questions (settings s)))
                  (modal s))
       (set_reads (S (reads s)) s)).
Proof.
  intros Hwf. destruct s as [ck rd v d cs st [a els o]].
  unfold onOpen. eff_run. rewrite forEach_render_ok by exact Hwf.
  unfold with_children. eff_run. by rewrite <- app_assoc.
Qed.

Lemma onOpen_throws (s : state) (pre : list Question) (q : Question)
    (post : list Question) :
  questions (settings s) = pre ++ q :: post ->
  forallb well_formed pre = true ->
  well_formed q = false ->
  onOpen s =
    (Thrown TypeError,
     set_modal (set_contentEl
                  (spec_title (clock s (reads s)) :: flat_map spec_field pre
                     ++ [Heading 3 (label q); DropdownComponent [] None])
                  (modal s))
       (set_reads (S (reads s)) s)).
Proof.
  intros Hqs Hpre Hq. destruct s as [ck rd v d cs st [a els o]].
  cbn [settings] in Hqs.
  unfold onOpen. eff_run. rewrite Hqs, forEach_render_throws by assumption.
  unfold with_children. by eff_run.
Qed.

(** C9: loading performs no check: it returns, and the questions of the
    data file become the settings' questions as they are, a dropdown
    without choices included.  Opening the form then throws a TypeError
    exactly when some question is such a dropdown: it stops at the first
    one, with the dropdown created but empty and no Save button.  When
    every dropdown has its choices, opening returns and the form has the
    fields of every question. *)
Theorem onOpen_malformed_dropdown (s : state) :
  (fst (loadSettings s) = Returned tt
   ∧ questions (settings (snd (loadSettings s)))
       = default (questions DEFAULT_SETTINGS) (data s ≫= saved_questions))
  ∧ fst (onOpen s)
      = (if forallb well_formed (questions (settings s))
         then Returned tt else Thrown TypeError)
  ∧ (forallb well_formed (questions (settings s)) = true ->
     contentEl (modal (snd (onOpen s)))
       = spec_form (clock s (reads s)) (questions (settings s)))
  ∧ (∀ pre q post,
       questions (settings s) = pre ++ q :: post ->
       forallb well_formed pre = true ->
       type q = dropdown -> choices q = None ->
       fst (onOpen s) = Thrown TypeError
       ∧ contentEl (modal (snd (onOpen s)))
           = spec_title (clock s (reads s)) :: flat_map spec_field pre
               ++ [Heading 3 (label q); DropdownComponent [] None]).
Proof.
  split; [|split; [|split]].
  - split; [by rewrite loadSettings_run|apply (loadSettings_shallow_merge s)].
  - destruct (forallb well_formed (questions (settings s))) eqn:Hwf.
    + by rewrite onOpen_ok.
    + destruct (forallb_false_split _ _ Hwf) as (pre & q & post & Hqs & Hpre & Hq).
      by rewrite (onOpen_throws s pre q post).
  - intros Hwf. by rewrite onOpen_ok.
  - intros pre q post Hqs Hpre Htype Hchoices.
    assert (Hq : well_formed q = false) by (unfold well_formed; by rewrite Htype, Hchoices).
    by rewrite (onOpen_throws s pre q post).
Qed.

Lemma onOpen_malformed_dropdown_sample :
  let loaded := snd (loadSettings malformed_state) in
  questions (settings loaded) = [q_todo; q_mood; q_dreams]
  ∧ fst (onOpen loaded) = Thrown TypeError
  ∧ contentEl (modal (snd (onOpen loaded)))
      = [Heading 2 (lit "Daily Reflection – 2024-03-07");
         Heading 3 (lit "✅ What I want to accomplish today");
         TextAreaComponent 3 (lit "todo");
         Heading 3 (lit "Mood");
         DropdownComponent [] None].
Proof.
  intros loaded.
  destruct (onOpen_malformed_dropdown malformed_state) as [[_ Hload] _].
  destruct (onOpen_malformed_dropdown loaded) as (_ & _ & _ & Hthrows).
  destruct (Hthrows [q_todo] q_mood [q_dreams]) as [Hfst Hcontent];
    try reflexivity.
  split; [|split].
  - subst loaded. rewrite Hload. reflexivity.
  - exact Hfst.
  - rewrite Hcontent. vm_compute. reflexivity.
Defined.

(** ** Form sessions *)

Lemma writeDailyNote_calls_app (a : gmap (list N) (list N)) (s : state) :
  calls (snd (writeDailyNote a s)) = calls s ++ calls_of (writeDailyNote a) s.
Proof.
  pose proof (writeDailyNote_calls a s) as Hc. cbv zeta in Hc. rewrite Hc.
  pose proof (writeDailyNote_run a s) as Hrun. cbv zeta in Hrun. by rewrite Hrun.
Qed.

Lemma writeDailyNote_submitted (a : gmap (list N) (list N)) (s : state) :
  submitted (calls_of (writeDailyNote a) s) = [].
Proof.
  pose proof (writeDailyNote_calls a s) as Hc. cbv zeta in Hc. rewrite Hc.
  by destruct (vault s !! _).
Qed.

Section Sessions.

Variable onSubmit : gmap (list N) (list N) -> Eff unit.

(** A closed modal receives nothing. *)
Lemma session_closed (evs : list event) (s : state) :
  opened (modal s) = false -> session onSubmit evs s = s.
Proof.
  intros Hclosed. induction evs as [|ev evs IH]; [done|].
  cbn [session]. unfold dispatch. eff_run.
  destruct s as [ck rd v d cs st [a els o]]. cbn in Hclosed. subst o.
  exact IH.
Qed.

Lemma session_app (evs1 evs2 : list event) (s : state) :
  session onSubmit (evs1 ++ evs2) s = session onSubmit evs2 (session onSubmit evs1 s).
Proof. revert s. induction evs1 as [|ev evs1 IH]; intros s; [done|]. apply IH. Qed.

(** An event that is neither the submit action nor a dismissal only
    stores an answer, if it reaches an input. *)
Lemma dispatch_edit (ev : event) (s : state) :
  opened (modal s) = true ->
  is_save (contentEl (modal s)) ev = false ->
  is_dismiss ev = false ->
  snd (dispatch onSubmit ev s) =
    set_modal (set_answers (accumulate (contentEl (modal s)) [ev] (answers (modal s)))
                 (modal s)) s.
Proof.
  destruct s as [ck rd v d cs st [a els o]]. cbn [modal opened contentEl answers].
  intros -> Hsave Hdismiss. unfold dispatch, accumulate. eff_run.
  destruct ev as [n x|n|]; [| |done]; cbn [fold_left].
  - unfold handler_key.
    destruct (els !! n) as [[| | |opts [qid|]|]|]; unfold onChange; by eff_run.
  - cbn [is_save] in Hsave.
    by destruct (els !! n) as [[| | | |]|].
Qed.

Lemma session_edits (evs : list event) (s : state) :
  opened (modal s) = true ->
  Forall (fun ev => is_save (contentEl (modal s)) ev = false ∧ is_dismiss ev = false) evs ->
  session onSubmit evs s =
    set_modal (set_answers (accumulate (contentEl (modal s)) evs (answers (modal s)))
                 (modal s)) s.
Proof.
  revert s. induction evs as [|ev evs IH]; intros s Hopen Hevs.
  - by destruct s as [ck rd v d cs st [a els o]].
  - apply Forall_cons in Hevs as [[Hsave Hdismiss] Hevs].
    cbn [session]. rewrite (dispatch_edit ev s Hopen Hsave Hdismiss).
    rewrite IH.
    + by destruct s as [ck rd v d cs st [a els o]].
    + by destruct s as [ck rd v d cs st [a els o]].
    + by destruct s as [ck rd v d cs st [a els o]].
Qed.

Lemma dispatch_dismiss (s : state) :
  opened (modal s) = true ->
  snd (dispatch onSubmit Dismiss s) = set_modal (closed_modal (modal s)) s.
Proof.
  destruct s as [ck rd v d cs st [a els o]]. cbn [modal opened].
  intros ->. unfold dispatch, close, onClose. by eff_run.
Qed.

(** Without the submit action nothing is called and the vault stays as
    it is, whatever the callback. *)
Lemma session_without_save (evs : list event) (s : state) :
  Forall (fun ev => is_save (contentEl (modal s)) ev = false) evs ->
  calls (session onSubmit evs s) = calls s ∧ vault (session onSubmit evs s) = vault s.
Proof.
  revert s. induction evs as [|ev evs IH]; intros s Hevs; [done|].
  destruct (opened (modal s)) eqn:Hopen; [|by rewrite session_closed].
  apply Forall_cons in Hevs as [Hsave Hevs]. cbn [session].
  destruct (is_dismiss ev) eqn:Hdismiss.
  - destruct ev; try done. rewrite (dispatch_dismiss s Hopen).
    rewrite session_closed; by destruct s as [ck rd v d cs st [a els o]].
  - rewrite (dispatch_edit ev s Hopen Hsave Hdismiss).
    destruct (IH (set_modal (set_answers
                    (accumulate (contentEl (modal s)) [ev] (answers (modal s)))
                    (modal s)) s)) as [Hcalls Hvault].
    + by destruct s as [ck rd v d cs st [a els o]].
    + rewrite Hcalls, Hvault. by destruct s as [ck rd v d cs st [a els o]].
Qed.

End Sessions.

(** The Save button of the plugin's form: the modal is closed, the
    callback is called with the answers, the note is written and the
    notice shown. *)
Lemma dispatch_save (n : nat) (s : state) :
  opened (modal s) = true ->
  is_save (contentEl (modal s)) (Click n) = true ->
  let a := answers (modal s) in
  let s_closed := set_calls (calls s ++ [OnSubmit a]) (set_modal (closed_modal (modal s)) s) in
  let s_written := snd (writeDailyNote a s_closed) in
  snd (dispatch submit (Click n) s) =
    set_calls (calls s_written ++ [NewNotice (lit "Journal saved ✔️")]) s_written.
Proof.
  destruct s as [ck rd v d cs st [a els o]]. cbn [modal opened contentEl answers].
  intros -> Hsave. cbv zeta. cbn [is_save] in Hsave.
  unfold dispatch, onClick, close, onClose, submit, closed_modal. eff_run.
  destruct (els !! n) as [[| | | |]|]; try done. eff_run.
  pose proof (writeDailyNote_returns a
    {| clock := ck; reads := rd; vault := v; data := d; calls := cs ++ [OnSubmit a];
       settings := st; modal := {| answers := a; contentEl := []; opened := false |} |})
    as Hret.
  destruct (writeDailyNote a _) as [out s_written]. cbn [fst] in Hret. subst out.
  by destruct s_written.
Qed.

(** The command leaves a fresh modal open, with no answers, and calls
    nothing, also when [onOpen] throws. *)
Lemma command_modal (s : state) :
  let s1 := snd (command s) in
  opened (modal s1) = true ∧ answers (modal s1) = ∅
  ∧ calls s1 = calls s ∧ vault s1 = vault s.
Proof.
  cbv zeta. unfold command, new_ReflectionModal, open.
  destruct s as [ck rd v d cs st m]. eff_run.
  set (s0 := {| clock := ck; reads := rd; vault := v; data := d; calls := cs;
                settings := st;
                modal := {| answers := ∅; contentEl := []; opened := true |} |}).
  destruct (forallb well_formed (questions (settings s0))) eqn:Hwf.
  - by rewrite (onOpen_ok s0 Hwf).
  - destruct (forallb_false_split _ _ Hwf) as (pre & q & post & Hqs & Hpre & Hq).
    by rewrite (onOpen_throws s0 pre q post Hqs Hpre Hq).
Qed.

Lemma submitted_app (l1 l2 : list call) :
  submitted (l1 ++ l2) = submitted l1 ++ submitted l2.
Proof. apply flat_map_app. Qed.



(** * Further properties *)

(** ** writeDailyNote and the rest of the state *)

(** X1: [writeDailyNote] changes one file of the vault and nothing else
    of the plugin: every other path keeps its content (or its absence),
    and the settings, the data file and the modal are as before. *)
Theorem writeDailyNote_touches_one_file (s : state) (a : gmap (list N) (list N)) :
  let s' := snd (writeDailyNote a s) in
  let p := spec_path (dailyFolder (settings s)) (clock s (reads s)) in
  delete p (vault s') = delete p (vault s)
  ∧ dom (vault s') = {[ p ]} ∪ dom (vault s)
  ∧ settings s' = settings s ∧ data s' = data s ∧ modal s' = modal s.
Proof.
  intros s' p. subst s'.
  pose proof (writeDailyNote_run a s) as Hrun. cbv zeta in Hrun. rewrite Hrun.
  cbn [fst snd vault settings data modal]. fold p.
  repeat split.
  - apply delete_insert_eq.
  - apply dom_insert_L.
Qed.

(** X2: a write that follows another one on the same day finds the note
    and creates nothing, whatever the vault held at first: it asks for
    the path, overwrites the file and opens it. *)
Theorem writeDailyNote_second_write_reuses (s : state)
    (a1 a2 : gmap (list N) (list N)) :
  clock s (S (S (reads s))) = clock s (reads s) ->
  let s1 := snd (writeDailyNote a1 s) in
  let p := spec_path (dailyFolder (settings s)) (clock s (reads s)) in
  let md := note_body (clock s (S (S (S (reads s))))) (questions (settings s)) a2 in
  calls_of (writeDailyNote a2) s1 =
    [GetAbstractFileByPath p; Modify {| path := p |} md;
     GetLeaf true; OpenFile {| path := p |} true].
Proof.
  intros Hday s1 p md.
  destruct (writeDailyNote_frame a1 s) as (Hclock & Hreads & Hsettings & _).
  cbv zeta in Hclock, Hreads, Hsettings. fold s1 in Hclock, Hreads, Hsettings.
  pose proof (writeDailyNote_calls a2 s1) as Hc. cbv zeta in Hc.
  rewrite Hc, Hclock, Hreads, Hsettings, Hday. fold p. fold md.
  subst s1. rewrite writeDailyNote_vault. fold p.
  by rewrite lookup_insert_eq.
Qed.

Lemma writeDailyNote_second_write_reuses_sample :
  created (calls_of (writeDailyNote {[ lit "dreams" := lit "None" ]})
             (snd (writeDailyNote ∅ sample_state))) = [].
Proof.
  rewrite (writeDailyNote_second_write_reuses sample_state); reflexivity.
Defined.

Lemma spec_sections_Forall2 (a : gmap (list N) (list N)) (qs : list Question) :
  Forall2 (fun q sec =>
      sec = lit "### " ++ label q ++ lit "\n" ++ default [] (a !! id q) ++ lit "\n\n")
    qs (map (spec_section a) qs).
Proof. induction qs; constructor; auto. Qed.

(** X16: when no question id names a member of [Object.prototype], the
    body [writeDailyNote] renders, hands to [vault.modify] and leaves in
    the vault is the date heading followed by one section per question,
    in order: a subheading with the label, a line with the answer stored
    under the question's id (empty when there is none) and a blank line;
    with an empty answer record every section has an empty line. *)
Theorem writeDailyNote_body (s : state) (a : gmap (list N) (list N)) :
  Forall (fun q => JsObject.inherited (id q) = None) (questions (settings s)) ->
  let today := clock s (S (reads s)) in
  let qs := questions (settings s) in
  let heading := lit "# " ++ Moment.format today Moment.longDate ++ lit "\n\n" in
  (∃ sections : list jsstring,
      map snd (modified (calls_of (writeDailyNote a) s)) = [heading ++ concat sections]
      ∧ vault (snd (writeDailyNote a s))
          !! spec_path (dailyFolder (settings s)) (clock s (reads s))
        = Some (heading ++ concat sections)
      ∧ Forall2 (fun q sec =>
            sec = lit "### " ++ label q ++ lit "\n" ++ default [] (a !! id q) ++ lit "\n\n")
          qs sections)
  ∧ (∃ sections : list jsstring,
      map snd (modified (calls_of (writeDailyNote ∅) s)) = [heading ++ concat sections]
      ∧ Forall2 (fun q sec => sec = lit "### " ++ label q ++ lit "\n" ++ lit "\n\n")
          qs sections).
Proof.
  intros Hids today qs heading.
  assert (Hbody : ∀ b : gmap (list N) (list N),
             note_body today qs b = heading ++ concat (map (spec_section b) qs)).
  { intros b. rewrite note_body_spec_body; [done|].
    eapply Forall_impl; [exact Hids|]. intros q Hq. by right. }
  assert (Hsections : ∀ b : gmap (list N) (list N),
             Forall2 (fun q sec =>
                 sec = lit "### " ++ label q ++ lit "\n" ++ default [] (b !! id q) ++ lit "\n\n")
               qs (map (spec_section b) qs)).
  { intros b. apply spec_sections_Forall2. }
  split.
  - exists (map (spec_section a) qs). split; [|split].
    + rewrite writeDailyNote_modified. cbn [map snd]. by rewrite Hbody.
    + rewrite writeDailyNote_vault, lookup_insert_eq. by rewrite Hbody.
    + apply Hsections.
  - exists (map (spec_section ∅) qs). split.
    + rewrite writeDailyNote_modified. cbn [map snd]. by rewrite Hbody.
    + eapply Forall2_impl; [apply Hsections|].
      intros q sec ->. by rewrite lookup_empty.
Qed.

Lemma writeDailyNote_body_sample :
  map snd (modified (calls_of (writeDailyNote ∅) sample_state))
    = [ lit "# Thursday, March 7 2024\n\n### ✅ What I want to accomplish today\n\n\n### 😴 Dreams\n\n\n" ].
Proof.
  destruct (writeDailyNote_body sample_state ∅) as [_ (sections & Hbody & Hsections)].
  - repeat constructor.
  - rewrite Hbody. cbn [sample_state settings questions] in Hsections.
    apply Forall2_cons_inv_l in Hsections as (sec1 & rest & -> & Hrest & ->).
    apply Forall2_cons_inv_l in Hrest as (sec2 & rest' & -> & Hnil & ->).
    apply Forall2_nil_inv_l in Hnil as ->.
    vm_compute. reflexivity.
Defined.

(** ** The settings and the data file *)

Lemma saveSettings_run (s : state) :
  saveSettings s =
    (Returned tt,
     set_data (Some (persist (settings s)))
       (set_calls (calls s ++ [SaveData (persist (settings s))]) s)).
Proof. by destruct s. Qed.

(** X3: settings that were saved come back from the next load as they
    are, whatever they hold (an empty folder, an empty or malformed list
    of questions): with every key stored, nothing of the defaults is
    filled in. *)
Theorem saveSettings_round_trip (s : state) :
  let s' := snd (saveSettings s) in
  settings s' = settings s
  ∧ data s' = Some (persist (settings s))
  ∧ calls_of saveSettings s = [SaveData (persist (settings s))]
  ∧ settings (snd (loadSettings s')) = settings s
  ∧ ∀ later : state, data later = data s' ->
      settings (snd (loadSettings later)) = settings s.
Proof.
  intros s'. subst s'. unfold calls_of. rewrite saveSettings_run.
  destruct s as [ck rd v d cs [folder qs] m]. cbn [snd settings data calls set_data set_calls].
  repeat split.
  - apply drop_app_length.
  - intros later Hlater. rewrite loadSettings_run.
    cbn [snd settings set_settings set_calls]. by rewrite Hlater.
Qed.

Lemma saveSettings_round_trip_sample :
  settings (snd (loadSettings (snd (saveSettings first_run_state))))
  = {| dailyFolder := []; questions := [] |}.
Proof.
  destruct (saveSettings_round_trip first_run_state) as (_ & _ & _ & _ & Hlater).
  apply Hlater. reflexivity.
Defined.


(** A string without white space at its ends is its own trim. *)
Lemma trim_fixed (s : jsstring) :
  from_option JsString.is_space false (head s) = false ->
  from_option JsString.is_space false (last s) = false ->
  JsString.trim s = s.
Proof.
  intros Hhead Hlast. unfold JsString.trim, JsString.trimEnd.
  assert (Hstart : ∀ t : jsstring,
             from_option JsString.is_space false (head t) = false ->
             JsString.trimStart t = t).
  { intros [|c t] Ht; [done|]. cbn in Ht. cbn [JsString.trimStart]. by rewrite Ht. }
  rewrite (Hstart s Hhead), Hstart; [apply rev_involutive|].
  rewrite rev_alt. fold (reverse s). by rewrite head_reverse.
Qed.

Lemma trim_idempotent (s : jsstring) : JsString.trim (JsString.trim s) = JsString.trim s.
Proof.
  destruct (trim_spec s) as (_ & Hhead & Hlast). by apply trim_fixed.
Qed.

(** X5: the folder the field stores is never empty and has no white
    space at its ends, whatever is typed; typing the stored value again
    stores the same. *)
Theorem folder_onChange_stored_folder (s : state) (value : jsstring) :
  let s' := snd (folder_onChange value s) in
  let stored := dailyFolder (settings s') in
  stored ≠ []
  ∧ JsString.trim stored = stored
  ∧ settings (snd (folder_onChange stored s')) = settings s'.
Proof.
  intros s' stored.
  assert (Hstored : stored = JsString.or_else (JsString.trim value) (lit "Daily")).
  { subst stored s'.
    pose proof (folder_onChange_run value s) as Hrun. cbv zeta in Hrun. by rewrite Hrun. }
  assert (Hne : stored ≠ []).
  { rewrite Hstored. unfold JsString.or_else.
    by destruct (JsString.trim value). }
  assert (Htrim : JsString.trim stored = stored).
  { rewrite Hstored. unfold JsString.or_else.
    destruct (JsString.trim value) eqn:Hv; cbn [JsString.truthy].
    - reflexivity.
    - rewrite <- Hv. apply trim_idempotent. }
  split; [done|split; [done|]].
  pose proof (folder_onChange_run stored s') as Hrun. cbv zeta in Hrun. rewrite Hrun.
  cbn [snd settings set_data set_calls set_settings]. rewrite Htrim.
  unfold JsString.or_else. destruct stored as [|c r] eqn:Hs; [done|].
  cbn [JsString.truthy]. rewrite <- Hs. subst stored. by destruct (settings s').
Qed.

(** X6: a write made after an edit of the folder field goes under the
    folder just stored: the settings are read when the note is written. *)
Theorem writeDailyNote_after_folder_change (s : state) (value : jsstring)
    (a : gmap (list N) (list N)) :
  let s' := snd ((folder_onChange value;; writeDailyNote a) s) in
  let folder := match JsString.trim value with
                | [] => lit "Daily"
                | _ :: _ => JsString.trim value
                end in
  let p := folder ++ lit "/" ++ Moment.format (clock s (reads s)) Moment.isoDate ++ lit ".md" in
  vault s' = <[p := note_body (clock s (S (reads s))) (questions (settings s)) a]> (vault s)
  ∧ (data s' ≫= saved_dailyFolder) = Some folder.
Proof.
  intros s' folder p.
  assert (Hs' : s' = snd (writeDailyNote a (snd (folder_onChange value s)))).
  { subst s'. unfold mbind, Eff_bind.
    pose proof (folder_onChange_run value s) as Hrun. cbv zeta in Hrun.
    by rewrite Hrun. }
  assert (Hfolder : JsString.or_else (JsString.trim value) (lit "Daily") = folder).
  { subst folder. unfold JsString.or_else. by destruct (JsString.trim value). }
  destruct (writeDailyNote_frame a (snd (folder_onChange value s))) as (_ & _ & _ & Hdata & _).
  cbv zeta in Hdata.
  rewrite Hs', writeDailyNote_vault, Hdata.
  pose proof (folder_onChange_run value s) as Hrun. cbv zeta in Hrun. rewrite Hrun.
  destruct s as [ck rd v d cs [fo qs] m].
  cbn [snd settings data clock reads vault set_data set_calls set_settings
       dailyFolder questions persist saved_dailyFolder mbind option_bind].
  by rewrite Hfolder.
Qed.

(** ** The children of the form *)

Lemma spec_field_input (q : Question) :
  spec_field q = [Heading 3 (label q); spec_input q].
Proof. reflexivity. Qed.

Lemma fields_length (qs : list Question) :
  length (flat_map spec_field qs) = (2 * length qs)%nat.
Proof. induction qs as [|q qs IH]; [done|]. cbn [flat_map length app spec_field]. lia. Qed.

Lemma fields_lookup (qs : list Question) (i : nat) (q : Question) :
  qs !! i = Some q ->
  flat_map spec_field qs !! (2 * i)%nat = Some (Heading 3 (label q))
  ∧ flat_map spec_field qs !! S (2 * i) = Some (spec_input q).
Proof.
  revert i. induction qs as [|q0 qs IH]; intros i Hi; [done|].
  destruct i as [|i].
  - cbn in Hi. injection Hi as ->. cbn [flat_map]. by rewrite spec_field_input.
  - cbn in Hi. destruct (IH i Hi) as [Hlabel Hinput].
    replace (2 * S i)%nat with (S (S (2 * i))) by lia.
    cbn [flat_map]. rewrite spec_field_input. by cbn [app lookup list_lookup].
Qed.

Lemma fields_keys (qs : list Question) :
  keys_of (flat_map spec_field qs) = map id qs.
Proof.
  induction qs as [|q qs IH]; [done|].
  cbn [flat_map map]. rewrite <- IH. unfold keys_of.
  rewrite spec_field_input. cbn [app omap list_omap handler_key].
  by destruct q as [i l [] c].
Qed.

Lemma fields_no_button (qs : list Question) :
  Forall (fun e => is_button e = false) (flat_map spec_field qs).
Proof.
  induction qs as [|q qs IH]; [constructor|].
  cbn [flat_map]. rewrite spec_field_input. cbn [app].
  repeat constructor; [by destruct q as [i l [] c]|exact IH].
Qed.

Lemma is_save_button (els : list element) (n : nat) :
  is_save els (Click n) = from_option is_button false (els !! n).
Proof. cbn [is_save]. by destruct (els !! n) as [[| | | |]|]. Qed.

(** A click submits only where there is a button. *)
Lemma no_button_no_save (els : list element) (ev : event) :
  Forall (fun e => is_button e = false) els -> is_save els ev = false.
Proof.
  intros Hels. destruct ev as [n v|n|]; try done.
  rewrite is_save_button. destruct (els !! n) as [e|] eqn:Hn; [|done].
  cbn. eapply Forall_forall in Hels; [exact Hels|].
  by eapply list_elem_of_lookup_2.
Qed.

Lemma handler_key_keys_of (els : list element) (n : nat) (k : jsstring) :
  handler_key (els !! n) = Some k -> k ∈ keys_of els.
Proof.
  intros Hk. destruct (els !! n) as [e|] eqn:Hn; [|done].
  apply list_elem_of_omap. exists e. split; [by eapply list_elem_of_lookup_2|done].
Qed.

(** The state the command leaves when every dropdown has its choices ... *)
Lemma command_ok (s : state) :
  forallb well_formed (questions (settings s)) = true ->
  command s =
    (Returned tt,
     set_modal {| answers := ∅;
                  contentEl := spec_form (clock s (reads s)) (questions (settings s));
                  opened := true |}
       (set_reads (S (reads s)) s)).
Proof.
  intros Hwf. unfold command, new_ReflectionModal, open.
  destruct s as [ck rd v d cs st m]. eff_run.
  rewrite onOpen_ok by exact Hwf. by eff_run.
Qed.

(** ... and when one has not. *)
Lemma command_throws (s : state) (pre : list Question) (q : Question)
    (post : list Question) :
  questions (settings s) = pre ++ q :: post ->
  forallb well_formed pre = true ->
  well_formed q = false ->
  command s =
    (Thrown TypeError,
     set_modal {| answers := ∅;
                  contentEl := spec_title (clock s (reads s)) :: flat_map spec_field pre
                                 ++ [Heading 3 (label q); DropdownComponent [] None];
                  opened := true |}
       (set_reads (S (reads s)) s)).
Proof.
  intros Hqs Hpre Hq. unfold command, new_ReflectionModal, open.
  destruct s as [ck rd v d cs st m]. eff_run.
  rewrite (onOpen_throws _ pre q post) by assumption. by eff_run.
Qed.

(** X7: the command starts every session from a modal of its own: open,
    with no answers, whatever an earlier session left; it reads the clock
    once and changes nothing else, whether [onOpen] returns or throws. *)
Theorem command_fresh_session (s : state) :
  let s1 := snd (command s) in
  answers (modal s1) = ∅
  ∧ opened (modal s1) = true
  ∧ reads s1 = S (reads s)
  ∧ calls s1 = calls s ∧ vault s1 = vault s
  ∧ settings s1 = settings s ∧ data s1 = data s.
Proof.
  cbv zeta.
  destruct (forallb well_formed (questions (settings s))) eqn:Hwf.
  - by rewrite (command_ok s Hwf).
  - destruct (forallb_false_split _ _ Hwf) as (pre & q & post & Hqs & Hpre & Hq).
    by rewrite (command_throws s pre q post Hqs Hpre Hq).
Qed.

Lemma spec_form_length (today : Moment.t) (qs : list Question) :
  length (spec_form today qs) = (2 * length qs + 2)%nat.
Proof.
  unfold spec_form. cbn [length]. rewrite length_app, fields_length. cbn [length]. lia.
Qed.

Lemma spec_form_keys (today : Moment.t) (qs : list Question) :
  keys_of (spec_form today qs) = map id qs.
Proof.
  unfold spec_form, keys_of. cbn [omap list_omap handler_key spec_title].
  rewrite omap_app. fold (keys_of (flat_map spec_field qs)). rewrite fields_keys.
  cbn [omap list_omap handler_key]. by rewrite app_nil_r.
Qed.

Lemma spec_form_lookup (today : Moment.t) (qs : list Question) (i : nat) (q : Question) :
  qs !! i = Some q ->
  spec_form today qs !! (2 * i + 1)%nat = Some (Heading 3 (label q))
  ∧ spec_form today qs !! (2 * i + 2)%nat = Some (spec_input q)
  ∧ handler_key (spec_form today qs !! (2 * i + 2)%nat) = Some (id q).
Proof.
  intros Hi. destruct (fields_lookup qs i q Hi) as [Hlabel Hinput].
  assert (Hlt : (S (2 * i) < length (flat_map spec_field qs))%nat)
    by (by apply lookup_lt_Some in Hinput).
  replace (2 * i + 1)%nat with (S (2 * i)) by lia.
  replace (2 * i + 2)%nat with (S (S (2 * i))) by lia.
  unfold spec_form. cbn [lookup list_lookup].
  change (((flat_map spec_field qs ++ [ButtonComponent (lit "Save") true]) !! (2 * i)%nat
           = Some (Heading 3 (label q)))
          ∧ ((flat_map spec_field qs ++ [ButtonComponent (lit "Save") true]) !! S (2 * i)
             = Some (spec_input q))
          ∧ handler_key ((flat_map spec_field qs ++ [ButtonComponent (lit "Save") true])
                           !! S (2 * i)) = Some (id q)).
  rewrite !lookup_app_l by lia. rewrite Hlabel, Hinput.
  repeat split. by destruct q as [k l [] c].
Qed.

(** The Save button is the last child, and the only button. *)
Lemma spec_form_save (today : Moment.t) (qs : list Question) (n : nat) :
  is_save (spec_form today qs) (Click n) = bool_decide (n = (2 * length qs + 1)%nat).
Proof.
  rewrite is_save_button. unfold spec_form. destruct n as [|n].
  - cbn. by rewrite bool_decide_eq_false_2 by lia.
  - change ((spec_title today
              :: flat_map spec_field qs ++ [ButtonComponent (lit "Save") true]) !! S n)
      with ((flat_map spec_field qs ++ [ButtonComponent (lit "Save") true]) !! n).
    destruct (decide (n < length (flat_map spec_field qs))%nat) as [Hlt|Hge].
    + rewrite lookup_app_l by exact Hlt.
      destruct (lookup_lt_is_Some_2 _ _ Hlt) as [e He]. rewrite He. cbn.
      pose proof (fields_no_button qs) as Hnb.
      eapply Forall_forall in Hnb; [|by eapply list_elem_of_lookup_2].
      rewrite Hnb. rewrite fields_length in Hlt.
      by rewrite bool_decide_eq_false_2 by lia.
    + rewrite lookup_app_r by lia. rewrite fields_length in *.
      destruct (n - 2 * length qs)%nat as [|m] eqn:Hm.
      * cbn. by rewrite bool_decide_eq_true_2 by lia.
      * cbn. by rewrite bool_decide_eq_false_2 by lia.
Qed.

(** X8: when every dropdown has its choices, the form has the title, two
    children per question and the Save button: question number [i] (from
    0) has its label at child [2i+1] and its input at child [2i+2], the
    inputs store under the ids of the questions in order, and the only
    child whose click submits is the last one, child [2n+1] for [n]
    questions. *)
Theorem form_layout (s : state) :
  forallb well_formed (questions (settings s)) = true ->
  let qs := questions (settings s) in
  let els := contentEl (modal (snd (command s))) in
  fst (command s) = Returned tt
  ∧ length els = (2 * length qs + 2)%nat
  ∧ keys_of els = map id qs
  ∧ (∀ (i : nat) (q : Question), qs !! i = Some q ->
       els !! (2 * i + 1)%nat = Some (Heading 3 (label q))
       ∧ els !! (2 * i + 2)%nat = Some (spec_input q)
       ∧ handler_key (els !! (2 * i + 2)%nat) = Some (id q))
  ∧ (∀ n : nat, is_save els (Click n) = bool_decide (n = (2 * length qs + 1)%nat)).
Proof.
  intros Hwf qs els. subst els. rewrite (command_ok s Hwf).
  cbn [fst snd modal set_modal contentEl]. fold qs.
  split; [done|split; [|split; [|split]]].
  - apply spec_form_length.
  - apply spec_form_keys.
  - intros i q. apply spec_form_lookup.
  - apply spec_form_save.
Qed.

Lemma form_layout_sample :
  let els := contentEl (modal (snd (command sample_state))) in
  els !! 4%nat = Some (TextAreaComponent 3 (lit "dreams"))
  ∧ is_save els (Click 5) = true.
Proof.
  destruct (form_layout sample_state) as (_ & _ & _ & Hfields & Hsave); [reflexivity|].
  cbv zeta. split.
  - destruct (Hfields 1%nat q_dreams) as (_ & Hinput & _); [reflexivity|].
    exact Hinput.
  - rewrite Hsave. reflexivity.
Defined.

(** ** Sessions *)

Lemma is_input_quiet (els : list element) (evs : list event) :
  Forall (fun ev => is_input ev = true) evs ->
  Forall (fun ev => is_save els ev = false ∧ is_dismiss ev = false) evs.
Proof. intros Hevs. eapply Forall_impl; [exact Hevs|]. by intros [n v|n|]. Qed.

Lemma accumulate_app (els : list element) (evs1 evs2 : list event)
    (a : gmap (list N) (list N)) :
  accumulate els (evs1 ++ evs2) a = accumulate els evs2 (accumulate els evs1 a).
Proof. apply fold_left_app. Qed.

Lemma set_lookup_ne (k k' v : jsstring) (o : gmap (list N) (list N)) :
  k' ≠ k -> JsObject.set k v o !! k' = o !! k'.
Proof.
  intros Hne. unfold JsObject.set.
  destruct (o !! k); [by rewrite lookup_insert_ne|].
  case_bool_decide; [done|]. by rewrite lookup_insert_ne.
Qed.

Lemma set_insert (k v : jsstring) (o : gmap (list N) (list N)) :
  k ≠ lit "__proto__" -> JsObject.set k v o = <[k := v]> o.
Proof.
  intros Hne. unfold JsObject.set. destruct (o !! k); [done|].
  by rewrite bool_decide_eq_false_2.
Qed.

(** X9: in an open form, after any edits, an edit of an input whose key
    is not "__proto__" stores its value under the key, in place of what
    was there: the last value wins.  Whatever the key, the answers under
    the other keys stay as they were. *)
Theorem edit_last_value_wins (onSubmit : gmap (list N) (list N) -> Eff unit)
    (s : state) (pre : list event) (n : nat) (v k : jsstring) :
  opened (modal s) = true ->
  Forall (fun ev => is_input ev = true) pre ->
  handler_key (contentEl (modal s) !! n) = Some k ->
  let before := answers (modal (session onSubmit pre s)) in
  let after := answers (modal (session onSubmit (pre ++ [Input n v]) s)) in
  after = JsObject.set k v before
  ∧ (k ≠ lit "__proto__" -> after = <[k := v]> before ∧ after !! k = Some v)
  ∧ (∀ k', k' ≠ k -> after !! k' = before !! k').
Proof.
  intros Hopen Hpre Hkey before after.
  assert (Hafter : after = JsObject.set k v before).
  { subst before after.
    rewrite (session_edits onSubmit pre s Hopen (is_input_quiet _ pre Hpre)).
    rewrite (session_edits onSubmit (pre ++ [Input n v]) s Hopen).
    - rewrite accumulate_app. destruct s as [ck rd vv d cs st [a e o]].
      cbn [modal answers contentEl set_modal set_answers] in *.
      unfold accumulate at 1. cbn [fold_left]. by rewrite Hkey.
    - apply is_input_quiet, Forall_app. split; [done|by repeat constructor]. }
  split; [done|]. rewrite Hafter. split.
  - intros Hne. rewrite set_insert by exact Hne. split; [done|apply lookup_insert_eq].
  - intros k' Hk'. by apply set_lookup_ne.
Qed.

Lemma edit_last_value_wins_sample :
  answers (modal (session submit
                    [Input 2 (lit "Ship"); Input 4 (lit "None"); Input 2 (lit "Ship the spec")]
                    (snd (command sample_state))))
    !! lit "todo" = Some (lit "Ship the spec").
Proof.
  destruct (edit_last_value_wins submit (snd (command sample_state))
              [Input 2 (lit "Ship"); Input 4 (lit "None")] 2%nat
              (lit "Ship the spec") (lit "todo")) as (_ & Hlast & _).
  - reflexivity.
  - repeat constructor.
  - reflexivity.
  - destruct Hlast as [_ Hlast]; [vm_compute; discriminate|]. exact Hlast.
Defined.

(** The keys of the form when [onOpen] stopped at a dropdown without
    choices: those of the questions before it. *)
Lemma broken_form_keys (today : Moment.t) (pre : list Question) (q : Question) :
  keys_of (spec_title today :: flat_map spec_field pre
             ++ [Heading 3 (label q); DropdownComponent [] None])
  = map id pre.
Proof.
  unfold keys_of. cbn [omap list_omap handler_key spec_title].
  rewrite omap_app. fold (keys_of (flat_map spec_field pre)). rewrite fields_keys.
  cbn [omap list_omap handler_key]. by rewrite app_nil_r.
Qed.

Lemma broken_form_no_button (today : Moment.t) (pre : list Question) (q : Question) :
  Forall (fun e => is_button e = false)
    (spec_title today :: flat_map spec_field pre
       ++ [Heading 3 (label q); DropdownComponent [] None]).
Proof.
  constructor; [done|]. apply Forall_app. split; [apply fields_no_button|].
  by repeat constructor.
Qed.

(** One event keeps the keys of the answers and of the inputs within
    [ids], and hands the callback answers whose keys are within [ids]. *)
Lemma dispatch_keeps_keys (ids : list jsstring) (ev : event) (s : state) :
  (∀ k, is_Some (answers (modal s) !! k) -> k ∈ ids) ->
  (∀ k, k ∈ keys_of (contentEl (modal s)) -> k ∈ ids) ->
  let s' := snd (dispatch submit ev s) in
  (∀ k, is_Some (answers (modal s') !! k) -> k ∈ ids)
  ∧ (∀ k, k ∈ keys_of (contentEl (modal s')) -> k ∈ ids)
  ∧ ∃ new, calls s' = calls s ++ new
           ∧ Forall (fun a : gmap (list N) (list N) => ∀ k, is_Some (a !! k) -> k ∈ ids)
               (submitted new).
Proof.
  intros Hanswers Hkeys s'. subst s'.
  destruct (opened (modal s)) eqn:Hopen.
  2: { change (snd (dispatch submit ev s)) with (session submit [ev] s).
       rewrite session_closed by exact Hopen.
       split; [done|split; [done|]]. exists []. by rewrite app_nil_r. }
  destruct (is_save (contentEl (modal s)) ev) eqn:Hsave.
  - destruct ev as [n v|n|]; try done.
    pose proof (dispatch_save n s Hopen Hsave) as Hclick. cbv zeta in Hclick.
    rewrite Hclick. clear Hclick.
    set (s_closed := set_calls (calls s ++ [OnSubmit (answers (modal s))])
                       (set_modal (closed_modal (modal s)) s)).
    destruct (writeDailyNote_frame (answers (modal s)) s_closed) as (_ & _ & _ & _ & Hmodal).
    cbv zeta in Hmodal.
    pose proof (writeDailyNote_calls_app (answers (modal s)) s_closed) as Hcalls.
    pose proof (writeDailyNote_submitted (answers (modal s)) s_closed) as Hnone.
    destruct (snd (writeDailyNote (answers (modal s)) s_closed)) as [ck rd v d cs st m].
    cbn [modal calls set_calls] in *. subst m.
    assert (Hclosed : modal s_closed = closed_modal (modal s)) by (by destruct s).
    assert (Hcs : calls s_closed = calls s ++ [OnSubmit (answers (modal s))])
      by (by destruct s).
    rewrite Hclosed. cbn [closed_modal answers contentEl].
    split; [done|split; [by intros k Hk; apply elem_of_nil in Hk|]].
    exists (OnSubmit (answers (modal s))
              :: calls_of (writeDailyNote (answers (modal s))) s_closed
              ++ [NewNotice (lit "Journal saved ✔️")]).
    split.
    + rewrite Hcalls, Hcs. by rewrite <- !app_assoc.
    + change (OnSubmit (answers (modal s))
                :: calls_of (writeDailyNote (answers (modal s))) s_closed
                ++ [NewNotice (lit "Journal saved ✔️")])
        with ([OnSubmit (answers (modal s))]
                ++ calls_of (writeDailyNote (answers (modal s))) s_closed
                ++ [NewNotice (lit "Journal saved ✔️")]).
      rewrite !submitted_app, Hnone. by repeat constructor.
  - destruct (is_dismiss ev) eqn:Hdismiss.
    + destruct ev as [n v|n|]; try done. rewrite (dispatch_dismiss submit s Hopen).
      destruct s as [ck rd v d cs st [a els o]]. cbn [modal calls set_modal closed_modal answers contentEl] in *.
      split; [done|split; [by intros k Hk; apply elem_of_nil in Hk|]].
      exists []. by rewrite app_nil_r.
    + rewrite (dispatch_edit submit ev s Hopen Hsave Hdismiss).
      destruct s as [ck rd v d cs st [a els o]].
      cbn [modal calls set_modal set_answers answers contentEl] in *.
      split; [|split; [done|exists []; by rewrite app_nil_r]].
      intros k. unfold accumulate. cbn [fold_left].
      destruct ev as [n x|n|]; try apply Hanswers.
      destruct (handler_key (els !! n)) as [qid|] eqn:Hqid; [|apply Hanswers].
      destruct (decide (k = qid)) as [->|Hne].
      * intros _. apply Hkeys. by eapply handler_key_keys_of.
      * rewrite set_lookup_ne by exact Hne. apply Hanswers.
Qed.

Lemma session_keeps_keys (ids : list jsstring) (evs : list event) (s : state) :
  (∀ k, is_Some (answers (modal s) !! k) -> k ∈ ids) ->
  (∀ k, k ∈ keys_of (contentEl (modal s)) -> k ∈ ids) ->
  (∀ k, is_Some (answers (modal (session submit evs s)) !! k) -> k ∈ ids)
  ∧ ∃ new, calls (session submit evs s) = calls s ++ new
           ∧ Forall (fun a : gmap (list N) (list N) => ∀ k, is_Some (a !! k) -> k ∈ ids)
               (submitted new).
Proof.
  revert s. induction evs as [|ev evs IH]; intros s Hanswers Hkeys.
  - split; [done|]. exists []. by rewrite app_nil_r.
  - destruct (dispatch_keeps_keys ids ev s Hanswers Hkeys)
      as (Hanswers' & Hkeys' & new1 & Hcalls1 & Hnew1).
    cbv zeta in Hanswers', Hkeys', Hcalls1.
    destruct (IH _ Hanswers' Hkeys') as (Hfinal & new2 & Hcalls2 & Hnew2).
    cbn [session]. split; [done|].
    exists (new1 ++ new2). split.
    + by rewrite Hcalls2, Hcalls1, <- app_assoc.
    + rewrite submitted_app. by apply Forall_app.
Qed.

(** X10: in a session opened by the command, whatever the user does,
    the answers are stored under ids of the configured questions only,
    and every record of answers handed to the completion callback has
    its keys among those ids. *)
Theorem answers_keys_are_question_ids (s : state) (evs : list event) :
  let ids := map id (questions (settings s)) in
  let s1 := snd (command s) in
  let final := session submit evs s1 in
  (∀ k, is_Some (answers (modal final) !! k) -> k ∈ ids)
  ∧ Forall (fun a : gmap (list N) (list N) => ∀ k, is_Some (a !! k) -> k ∈ ids)
      (submitted (calls_since s1 final)).
Proof.
  intros ids s1 final.
  assert (Hstart : answers (modal s1) = ∅
                   ∧ ∀ k, k ∈ keys_of (contentEl (modal s1)) -> k ∈ ids).
  { subst s1 ids. destruct (forallb well_formed (questions (settings s))) eqn:Hwf.
    - rewrite (command_ok s Hwf). cbn [snd modal set_modal answers contentEl].
      by rewrite spec_form_keys.
    - destruct (forallb_false_split _ _ Hwf) as (pre & q & post & Hqs & Hpre & Hq).
      rewrite (command_throws s pre q post Hqs Hpre Hq).
      cbn [snd modal set_modal answers contentEl].
      rewrite broken_form_keys, Hqs, map_app. split; [done|].
      intros k Hk. apply elem_of_app. by left. }
  destruct Hstart as [Hempty Hkeys].
  destruct (session_keeps_keys ids evs s1) as (Hfinal & new & Hcalls & Hnew).
  - intros k. rewrite Hempty, lookup_empty. by intros [? ?].
  - exact Hkeys.
  - split; [exact Hfinal|].
    unfold calls_since. fold final in Hcalls. by rewrite Hcalls, drop_app_length.
Qed.

Lemma answers_keys_are_question_ids_sample :
  lit "todo" ∈ map id (questions (settings sample_state)).
Proof.
  destruct (answers_keys_are_question_ids sample_state
              [Input 2 (lit "Ship the spec"); Input 1 (lit "x"); Click 5; Input 4 (lit "late")])
    as [Hanswers _].
  apply Hanswers. vm_compute. eauto.
Defined.

(** X11: from the command to the note, in the runs where the vault's
    calls return.  With every dropdown having its choices, edits followed
    by a click on the Save button leave in the vault the note built from
    the answers the handlers have stored, and nothing else changed.  The
    clock is read three times: the form's title has the first date, the
    path of the note the second, the heading of the note the third.  The
    callback is called once, with those answers, and the note is
    overwritten once; the modal ends closed and emptied, and what the
    user does afterwards changes none of this. *)
Theorem save_writes_the_answers (s : state) (pre post : list event) :
  forallb well_formed (questions (settings s)) = true ->
  Forall (fun ev => is_input ev = true) pre ->
  let qs := questions (settings s) in
  let acc := accumulate (spec_form (clock s (reads s)) qs) pre ∅ in
  let p := spec_path (dailyFolder (settings s)) (clock s (S (reads s))) in
  let md := note_body (clock s (S (S (reads s)))) qs acc in
  let final := session submit (pre ++ Click (2 * length qs + 1) :: post) (snd (command s)) in
  vault final = <[p := md]> (vault s)
  ∧ submitted (calls_since s final) = [acc]
  ∧ modified (calls_since s final) = [({| path := p |}, md)]
  ∧ modal final = {| answers := acc; contentEl := []; opened := false |}
  ∧ reads final = S (S (S (reads s))).
Proof.
  intros Hwf Hpre qs acc p md final.
  set (els := spec_form (clock s (reads s)) qs).
  set (s1 := snd (command s)).
  assert (Hs1 : s1 = set_modal {| answers := ∅; contentEl := els; opened := true |}
                       (set_reads (S (reads s)) s))
    by (subst s1; by rewrite (command_ok s Hwf)).
  assert (Hopen : opened (modal s1) = true) by (by rewrite Hs1).
  assert (Hels : contentEl (modal s1) = els) by (by rewrite Hs1).
  assert (Hfinal : final =
            snd (dispatch submit (Click (2 * length qs + 1))
                   (set_modal (set_answers acc (modal s1)) s1))).
  { subst final. fold s1. rewrite session_app. cbn [session].
    rewrite (session_edits submit pre s1 Hopen) by (by apply is_input_quiet).
    rewrite Hels. replace (answers (modal s1)) with (∅ : gmap (list N) (list N))
      by (by rewrite Hs1).
    fold acc. apply session_closed.
    pose proof (dispatch_save (2 * length qs + 1)
                  (set_modal (set_answers acc (modal s1)) s1)) as Hclick.
    rewrite Hs1 in Hclick |- *.
    cbn [modal set_modal set_answers opened contentEl answers] in Hclick |- *.
    unfold els in Hclick at 1. rewrite spec_form_save in Hclick.
    rewrite bool_decide_eq_true_2 in Hclick by done.
    specialize (Hclick eq_refl eq_refl). cbv zeta in Hclick. rewrite Hclick.
    match goal with
    | |- context [writeDailyNote acc ?s0] =>
      destruct (writeDailyNote_frame acc s0) as (_ & _ & _ & _ & Hmodal)
    end.
    cbv zeta in Hmodal.
    destruct (snd (writeDailyNote acc _)) as [ck rd v d cs st m].
    cbn [modal set_calls] in *. rewrite Hmodal. by destruct s. }
  pose proof (dispatch_save (2 * length qs + 1)
                (set_modal (set_answers acc (modal s1)) s1)) as Hclick.
  rewrite Hs1 in Hclick, Hfinal.
  cbn [modal set_modal set_answers opened contentEl answers] in Hclick, Hfinal.
  unfold els in Hclick at 1. rewrite spec_form_save in Hclick.
  rewrite bool_decide_eq_true_2 in Hclick by done.
  specialize (Hclick eq_refl eq_refl). cbv zeta in Hclick.
  rewrite Hclick in Hfinal. clear Hclick.
  rewrite writeDailyNote_run in Hfinal.
  destruct s as [ck rd v d cs st m].
  cbn [snd clock reads vault data calls settings modal set_calls set_modal set_reads
       closed_modal answers] in Hfinal.
  fold qs in Hfinal. cbn [settings] in p. fold p in Hfinal.
  cbn [clock reads settings] in md. fold md in Hfinal.
  rewrite Hfinal. unfold calls_since. cbn [vault calls modal reads set_calls].
  rewrite <- !app_assoc, drop_app_length.
  subst p md qs. cbn [settings clock reads].
  repeat split; by destruct (v !! _).
Qed.

Lemma save_writes_the_answers_sample :
  vault (session submit
           [Input 2 (lit "Ship the spec"); Click 5; Input 4 (lit "late"); Click 5]
           (snd (command sample_state)))
    !! lit "Daily/2024-03-07.md"
  = Some (lit "# Thursday, March 7 2024\n\n### ✅ What I want to accomplish today\nShip the spec\n\n### 😴 Dreams\n\n\n").
Proof.
  destruct (save_writes_the_answers sample_state [Input 2 (lit "Ship the spec")]
              [Input 4 (lit "late"); Click 5]) as (Hvault & _).
  - reflexivity.
  - by repeat constructor.
  - cbv zeta in Hvault.
    change (2 * length (questions (settings sample_state)) + 1)%nat with 5%nat in Hvault.
    cbn [app] in Hvault. rewrite Hvault. vm_compute. reflexivity.
Defined.

(** X12: with a dropdown without choices among the questions, the
    command throws and leaves a form without a Save button: whatever the
    user does in that session, the callback is not called and neither
    the record of calls nor the vault changes: nothing can be saved. *)
Theorem malformed_form_cannot_submit (s : state) (evs : list event) :
  forallb well_formed (questions (settings s)) = false ->
  let final := session submit evs (snd (command s)) in
  fst (command s) = Thrown TypeError
  ∧ Forall (fun e => is_button e = false) (contentEl (modal (snd (command s))))
  ∧ calls final = calls s
  ∧ vault final = vault s.
Proof.
  intros Hwf final.
  destruct (forallb_false_split _ _ Hwf) as (pre & q & post & Hqs & Hpre & Hq).
  pose proof (command_throws s pre q post Hqs Hpre Hq) as Hcommand.
  assert (Hnb : Forall (fun e => is_button e = false)
                  (contentEl (modal (snd (command s))))).
  { rewrite Hcommand. cbn [snd modal set_modal contentEl]. apply broken_form_no_button. }
  destruct (session_without_save submit evs (snd (command s))) as [Hcalls Hvault].
  { apply Forall_forall. intros ev _. by apply no_button_no_save. }
  subst final. rewrite Hcalls, Hvault, Hcommand.
  split; [done|split; [|by destruct s]].
  rewrite <- Hcommand. exact Hnb.
Qed.

Lemma malformed_form_cannot_submit_sample :
  calls (session submit [Input 2 (lit "Ship the spec"); Click 4; Click 5; Click 6]
           (snd (command (snd (loadSettings malformed_state)))))
  = [LoadData].
Proof.
  destruct (malformed_form_cannot_submit (snd (loadSettings malformed_state))
              [Input 2 (lit "Ship the spec"); Click 4; Click 5; Click 6])
    as (_ & _ & Hcalls & _).
  - reflexivity.
  - cbv zeta in Hcalls. rewrite Hcalls. reflexivity.
Defined.

(** X13: the first run.  With no data file, [onload] makes the settings
    the defaults; the ids of the default questions are pairwise distinct
    and every default dropdown has its choices, so the command opens the
    form without throwing, with an input for each of the 16 questions. *)
Theorem first_run_opens_default_form (s : state) :
  data s = None ->
  let s0 := snd (onload s) in
  settings s0 = DEFAULT_SETTINGS
  ∧ NoDup (map id (questions DEFAULT_SETTINGS))
  ∧ fst (command s0) = Returned tt
  ∧ keys_of (contentEl (modal (snd (command s0)))) = map id (questions DEFAULT_SETTINGS)
  ∧ length (contentEl (modal (snd (command s0)))) = 34%nat.
Proof.
  intros Hdata s0.
  assert (Hs0 : settings s0 = DEFAULT_SETTINGS).
  { subst s0. unfold onload. rewrite loadSettings_run.
    cbn [snd settings set_settings]. by rewrite Hdata. }
  assert (Hwf : forallb well_formed (questions (settings s0)) = true)
    by (rewrite Hs0; vm_compute; reflexivity).
  rewrite (command_ok s0 Hwf). cbn [fst snd modal set_modal contentEl].
  rewrite spec_form_keys, spec_form_length, Hs0.
  repeat split.
  apply (bool_decide_unpack _). vm_compute. exact I.
Qed.

Lemma first_run_opens_default_form_sample :
  fst (command (snd (onload first_run_state))) = Returned tt.
Proof.
  destruct (first_run_opens_default_form first_run_state) as (_ & _ & Hreturns & _).
  - reflexivity.
  - exact Hreturns.
Defined.

Lemma accumulate_untouched (els : list element) (evs : list event)
    (a : gmap (list N) (list N)) (k : jsstring) :
  a !! k = None ->
  (∀ n v, Input n v ∈ evs -> handler_key (els !! n) ≠ Some k) ->
  accumulate els evs a !! k = None.
Proof.
  revert a. induction evs as [|ev evs IH]; intros a Ha Hevs; [done|].
  change (accumulate els (ev :: evs) a)
    with (accumulate els evs (accumulate els [ev] a)).
  apply IH.
  - unfold accumulate. cbn [fold_left]. destruct ev as [n v|n|]; try done.
    destruct (handler_key (els !! n)) as [qid|] eqn:Hqid; [|done].
    rewrite set_lookup_ne; [done|].
    intros ->. eapply (Hevs n v); [apply list_elem_of_here|exact Hqid].
  - intros n v Hin. apply (Hevs n v). by apply list_elem_of_further.
Qed.

(** X14: an input the user never edits has no answer, also a dropdown,
    whose first choice is shown but not recorded: after any edits of
    other inputs, nothing is stored under its key. *)
Theorem untouched_input_has_no_answer (s : state) (pre : list event) (k : jsstring) :
  Forall (fun ev => is_input ev = true) pre ->
  let s1 := snd (command s) in
  (∀ n v, Input n v ∈ pre -> handler_key (contentEl (modal s1) !! n) ≠ Some k) ->
  answers (modal (session submit pre s1)) !! k = None.
Proof.
  intros Hpre s1 Hother.
  destruct (command_modal s) as (Hopen & Hempty & _). fold s1 in Hopen, Hempty.
  rewrite (session_edits submit pre s1 Hopen) by (by apply is_input_quiet).
  rewrite Hempty.
  replace (answers (modal (set_modal
             (set_answers (accumulate (contentEl (modal s1)) pre ∅) (modal s1)) s1)))
    with (accumulate (contentEl (modal s1)) pre ∅)
    by (by destruct s1 as [ck rd v d cs st [a e o]]).
  by apply accumulate_untouched.
Qed.

Lemma untouched_input_has_no_answer_sample :
  answers (modal (session submit [Input 2 (lit "Ship the spec"); Input 1 (lit "x")]
                    (snd (command sample_state))))
    !! lit "dreams" = None.
Proof.
  apply untouched_input_has_no_answer.
  - by repeat constructor.
  - intros n v Hin.
    apply list_elem_of_In in Hin. destruct Hin as [Hin|[Hin|[]]];
      injection Hin as <- <-; vm_compute; congruence.
Defined.

(** X15: notes of different days are kept side by side: when the second
    write resolves to another path than the first, each of the two notes
    holds the body of its own write afterwards. *)
Theorem writeDailyNote_other_day (s : state) (a1 a2 : gmap (list N) (list N)) :
  let folder := dailyFolder (settings s) in
  let qs := questions (settings s) in
  let p1 := spec_path folder (clock s (reads s)) in
  let p2 := spec_path folder (clock s (S (S (reads s)))) in
  p1 ≠ p2 ->
  let s2 := snd ((writeDailyNote a1;; writeDailyNote a2) s) in
  vault s2 !! p1 = Some (note_body (clock s (S (reads s))) qs a1)
  ∧ vault s2 !! p2 = Some (note_body (clock s (S (S (S (reads s))))) qs a2)
  ∧ dom (vault s2) = {[ p1; p2 ]} ∪ dom (vault s).
Proof.
  intros folder qs p1 p2 Hne s2.
  assert (Hs2 : s2 = snd (writeDailyNote a2 (snd (writeDailyNote a1 s)))).
  { subst s2. unfold mbind, Eff_bind.
    pose proof (writeDailyNote_returns a1 s) as Hret.
    destruct (writeDailyNote a1 s) as [o s1]. cbn [fst] in Hret. by subst o. }
  destruct (writeDailyNote_frame a1 s) as (Hclock & Hreads & Hsettings & _).
  cbv zeta in Hclock, Hreads, Hsettings.
  rewrite Hs2, writeDailyNote_vault, Hclock, Hreads, Hsettings, writeDailyNote_vault.
  fold folder qs p1 p2.
  split; [|split].
  - rewrite lookup_insert_ne by done. apply lookup_insert_eq.
  - apply lookup_insert_eq.
  - rewrite !dom_insert_L. apply set_eq. intros x.
    rewrite !elem_of_union, !elem_of_singleton. tauto.
Qed.

Lemma writeDailyNote_other_day_sample :
  vault (snd ((writeDailyNote {[ lit "dreams" := lit "None" ]};; writeDailyNote ∅) week_state))
    !! lit "Daily/2024-03-07.md"
  = Some (lit "# Friday, March 8 2024\n\n### ✅ What I want to accomplish today\n\n\n### 😴 Dreams\nNone\n\n").
Proof.
  destruct (writeDailyNote_other_day week_state {[ lit "dreams" := lit "None" ]} ∅)
    as (Hfirst & _).
  - vm_compute. congruence.
  - cbv zeta in Hfirst.
    replace (lit "Daily/2024-03-07.md")
      with (spec_path (dailyFolder (settings week_state)) (clock week_state (reads week_state)))
      by (vm_compute; reflexivity).
    rewrite Hfirst. vm_compute. reflexivity.
Defined.

(** An edit of the input of a question whose id is "__proto__" stores
    nothing, and the saved note has the inherited member on its line. *)
Example proto_edit_is_lost :
  let final := session submit [Input 4 (lit "typed"); Click 5] (snd (command inherited_state)) in
  submitted (calls_since inherited_state final) = [∅]
  ∧ vault final !! lit "Daily/2024-03-07.md"
    = Some (lit "# Thursday, March 7 2024\n\n### Built today\nfunction Object() { [native code] }\n\n### Prototype\n[object Object]\n\n").
Proof. vm_compute. split; reflexivity. Qed.
